(** * pzlog: configuration normalisation, logger construction and the
      request-logging middleware of [pzlog/log.go], embedded in Rocq.

    The Go source configures a zap logger from a small configuration
    struct.  The functions of [log.go] are embedded as Rocq functions of
    the same names; the parts of the Go standard library, zap and gin
    that [log.go] calls are either written out (where their behaviour is
    short and documented) or taken as operations of the class
    [GoRuntime] below. *)

From Stdlib Require Import ZArith String Ascii List Bool Lia.
From stdpp Require Import base option gmap strings list fin_maps pretty.

Local Open Scope string_scope.
Local Open Scope list_scope.
Local Open Scope Z_scope.

(** ** Library operations that [log.go] only calls

    [strings.Map(unicode.ToLower, s)] needs the Unicode tables,
    [Time.Format] the layout interpreter of package [time],
    [EntryCaller.TrimmedPath], [Duration.String], [Context.ClientIP] and
    [errorMsgs.String] belong to zap, time and gin.  None of them is
    defined in this repository, so they are operations of a class and
    every result below holds for all of its instances. *)

(** [time.Time] as nanoseconds since the Unix epoch, [time.Duration] as
    a count of nanoseconds. *)
Definition Time := Z.
Definition Duration := Z.

(** [zapcore.EntryCaller]. *)
Record EntryCaller := {
  Defined : bool;
  PC : Z;
  File : string;
  Line : Z;
  Function : string;
}.

Class GoRuntime := {
  (** [strings.Map(unicode.ToLower, s)], reached by [strings.ToLower]
      only when [s] has a byte >= 0x80 *)
  unicode_ToLower_Map : string -> string;
  (** [t.Format(layout)] *)
  time_Format : Time -> string -> string;
  (** [d.String()] *)
  duration_String : Duration -> string;
  (** [caller.TrimmedPath()] *)
  caller_TrimmedPath : EntryCaller -> string;
  (** [fmt.Sprintf("LEVEL(%d)", l)] and [fmt.Sprintf("Level(%d)", l)] *)
  sprintf_LEVEL : Z -> string;
  sprintf_Level : Z -> string;
}.

(** ** Package [strings] *)
Module strings.

Definition RuneSelf : nat := 128.

Definition isUpperByte (c : ascii) : bool :=
  (nat_of_ascii "A" <=? nat_of_ascii c)%nat && (nat_of_ascii c <=? nat_of_ascii "Z")%nat.

(** the first loop of [ToLower]: is every byte below [utf8.RuneSelf]? *)
Fixpoint isASCII (s : string) : bool :=
  match s with
  | EmptyString => true
  | String c s' => (nat_of_ascii c <? RuneSelf)%nat && isASCII s'
  end.

Fixpoint hasUpper (s : string) : bool :=
  match s with
  | EmptyString => false
  | String c s' => isUpperByte c || hasUpper s'
  end.

(** [c += 'a' - 'A'] for an upper-case byte *)
Definition lowerByte (c : ascii) : ascii :=
  if isUpperByte c then ascii_of_nat (nat_of_ascii c + 32) else c.

Fixpoint lowerBytes (s : string) : string :=
  match s with
  | EmptyString => EmptyString
  | String c s' => String (lowerByte c) (lowerBytes s')
  end.

(** [strings.ToLower]: the ASCII fast path is written out, the
    general path is the library's Unicode mapping. *)
Definition ToLower `{GoRuntime} (s : string) : string :=
  if isASCII s then
    if hasUpper s then lowerBytes s else s
  else unicode_ToLower_Map s.

End strings.

(** ** Package [lumberjack] *)
Module lumberjack.

(** The exported fields of [lumberjack.Logger]. *)
Record Logger := {
  Filename : string;
  MaxSize : Z;
  MaxAge : Z;
  MaxBackups : Z;
  LocalTime : bool;
  Compress : bool;
}.

End lumberjack.

(** ** Package [zapcore]

    The part of zap's core that [GetLogger] wires together: levels,
    encoder configurations, write syncers, cores and the tee.  The
    behaviour is the documented one of the library: [Level.Enabled] is
    [lvl >= l], an [ioCore] adds itself to a checked entry when its level
    enabler admits the entry and, on [Write], encodes the entry with its
    encoder and writes the buffer to its syncer, and a [multiCore] hands
    [Check] and [Write] to each of its members in order. *)
Module zapcore.

(** [type Level int8] *)
Definition Level := Z.

Definition DebugLevel : Level := -1.
Definition InfoLevel : Level := 0.
Definition WarnLevel : Level := 1.
Definition ErrorLevel : Level := 2.
Definition DPanicLevel : Level := 3.
Definition PanicLevel : Level := 4.
Definition FatalLevel : Level := 5.

(** [func (l Level) Enabled(lvl Level) bool { return lvl >= l }] *)
Definition Level_Enabled (l lvl : Level) : bool := l <=? lvl.

(** [func (l Level) String() string] *)
Definition Level_String `{GoRuntime} (l : Level) : string :=
  if decide (l = DebugLevel) then "debug"
  else if decide (l = InfoLevel) then "info"
  else if decide (l = WarnLevel) then "warn"
  else if decide (l = ErrorLevel) then "error"
  else if decide (l = DPanicLevel) then "dpanic"
  else if decide (l = PanicLevel) then "panic"
  else if decide (l = FatalLevel) then "fatal"
  else sprintf_Level l.

(** [func (l Level) CapitalString() string] *)
Definition Level_CapitalString `{GoRuntime} (l : Level) : string :=
  if decide (l = DebugLevel) then "DEBUG"
  else if decide (l = InfoLevel) then "INFO"
  else if decide (l = WarnLevel) then "WARN"
  else if decide (l = ErrorLevel) then "ERROR"
  else if decide (l = DPanicLevel) then "DPANIC"
  else if decide (l = PanicLevel) then "PANIC"
  else if decide (l = FatalLevel) then "FATAL"
  else sprintf_LEVEL l.

(** What an encoder callback appends to a [PrimitiveArrayEncoder].
    [PFloat64Quot n d] stands for the float64 [float64(n) / float64(d)]. *)
Inductive Primitive :=
| PString (s : string)
| PFloat64Quot (n d : Z).

(** A [PrimitiveArrayEncoder] is the list of what was appended to it. *)
Definition PrimitiveArrayEncoder := list Primitive.

Definition AppendString (s : string) (enc : PrimitiveArrayEncoder) : PrimitiveArrayEncoder :=
  enc ++ [PString s].

Definition AppendFloat64Quot (n d : Z) (enc : PrimitiveArrayEncoder) : PrimitiveArrayEncoder :=
  enc ++ [PFloat64Quot n d].

Definition LevelEncoder := Level -> PrimitiveArrayEncoder -> PrimitiveArrayEncoder.
Definition TimeEncoder := Time -> PrimitiveArrayEncoder -> PrimitiveArrayEncoder.
Definition DurationEncoder := Duration -> PrimitiveArrayEncoder -> PrimitiveArrayEncoder.
Definition CallerEncoder := EntryCaller -> PrimitiveArrayEncoder -> PrimitiveArrayEncoder.

(** [time.Second] in nanoseconds *)
Definition time_Second : Z := 1000000000.

(** The callbacks of the library that [log.go] and zap's two default
    encoder configurations name. *)
Definition CapitalLevelEncoder `{GoRuntime} : LevelEncoder :=
  fun l enc => AppendString (Level_CapitalString l) enc.

Definition LowercaseLevelEncoder `{GoRuntime} : LevelEncoder :=
  fun l enc => AppendString (Level_String l) enc.

Definition ISO8601TimeEncoder `{GoRuntime} : TimeEncoder :=
  fun t enc => AppendString (time_Format t "2006-01-02T15:04:05.000Z0700") enc.

Definition EpochTimeEncoder : TimeEncoder :=
  fun t enc => AppendFloat64Quot t time_Second enc.

Definition SecondsDurationEncoder : DurationEncoder :=
  fun d enc => AppendFloat64Quot d time_Second enc.

Definition StringDurationEncoder `{GoRuntime} : DurationEncoder :=
  fun d enc => AppendString (duration_String d) enc.

Definition ShortCallerEncoder `{GoRuntime} : CallerEncoder :=
  fun caller enc => AppendString (caller_TrimmedPath caller) enc.

Definition OmitKey : string := "".
Definition DefaultLineEnding : string := String (ascii_of_nat 10) EmptyString.

(** [type EncoderConfig struct]: the fields that the configurations
    used by [log.go] set. *)
Record EncoderConfig := {
  TimeKey : string;
  LevelKey : string;
  NameKey : string;
  CallerKey : string;
  FunctionKey : string;
  MessageKey : string;
  StacktraceKey : string;
  LineEnding : string;
  EncodeLevel : LevelEncoder;
  EncodeTime : TimeEncoder;
  EncodeDuration : DurationEncoder;
  EncodeCaller : CallerEncoder;
}.

(** The two encoders of the library: the human-readable console
    layout and the machine-readable JSON layout. *)
Inductive Encoder :=
| consoleEncoder (cfg : EncoderConfig)
| jsonEncoder (cfg : EncoderConfig).

Definition NewConsoleEncoder (cfg : EncoderConfig) : Encoder := consoleEncoder cfg.
Definition NewJSONEncoder (cfg : EncoderConfig) : Encoder := jsonEncoder cfg.

Definition Encoder_config (e : Encoder) : EncoderConfig :=
  match e with consoleEncoder cfg | jsonEncoder cfg => cfg end.

(** [type Entry struct] *)
Record Entry := {
  Entry_Level : Level;
  Entry_Time : Time;
  LoggerName : string;
  Message : string;
  Caller : EntryCaller;
  Stack : string;
}.

(** [type Field struct], for the three field types of this program. *)
Inductive FieldType := Int64Type | StringType | DurationType.

Record Field := {
  Key : string;
  Type_ : FieldType;
  Integer : Z;
  String_ : string;
}.

(** Where bytes go: the standard output or a rotating file. *)
Inductive Writer :=
| os_Stdout
| lumberjack_Logger (l : lumberjack.Logger).

(** [AddSync] gives a writer a no-op [Sync]; [Lock] serialises the
    calls of a write syncer; [os.Stdout] is a write syncer already. *)
Inductive WriteSyncer :=
| File (w : Writer)
| AddSync (w : Writer)
| Lock (ws : WriteSyncer).

Fixpoint WriteSyncer_writer (ws : WriteSyncer) : Writer :=
  match ws with
  | File w | AddSync w => w
  | Lock ws' => WriteSyncer_writer ws'
  end.

(** [type Core interface], with its three implementations. *)
#[warnings="-register-all"]
Inductive Core :=
| ioCore (enab : Level) (enc : Encoder) (out : WriteSyncer)
| multiCore (mc : list Core)
| nopCore.

(** [func NewCore(enc Encoder, ws WriteSyncer, enab LevelEnabler) Core] *)
Definition NewCore (enc : Encoder) (ws : WriteSyncer) (enab : Level) : Core :=
  ioCore enab enc ws.

(** [func NewTee(cores ...Core) Core] *)
Definition NewTee (cores : list Core) : Core :=
  match cores with
  | [] => nopCore
  | [c] => c
  | _ => multiCore cores
  end.

(** [Core.Enabled] *)
Fixpoint Enabled (c : Core) (lvl : Level) : bool :=
  match c with
  | ioCore enab _ _ => Level_Enabled enab lvl
  | multiCore mc => existsb (fun c' => Enabled c' lvl) mc
  | nopCore => false
  end.

(** [Core.Check(ent, ce)]; the checked entry is the list of cores
    that agreed to write the entry. *)
Fixpoint Check (c : Core) (ent : Entry) (ce : list Core) : list Core :=
  match c with
  | ioCore enab _ _ =>
      if Level_Enabled enab (Entry_Level ent) then ce ++ [c] else ce
  | multiCore mc =>
      (fix range (mc : list Core) (ce : list Core) : list Core :=
         match mc with
         | [] => ce
         | c' :: mc' => range mc' (Check c' ent ce)
         end) mc ce
  | nopCore => ce
  end.

(** What a logging call does to the world: an encoder is run on an
    entry, and the buffer it returned is written to a writer. *)
Inductive Event :=
| EncodeEntry (enc : Encoder) (ent : Entry) (fields : list Field)
| Write_ (w : Writer) (enc : Encoder) (ent : Entry) (fields : list Field).

(** [Core.Write(ent, fields)] *)
Fixpoint Write (c : Core) (ent : Entry) (fields : list Field) : list Event :=
  match c with
  | ioCore _ enc out =>
      [ EncodeEntry enc ent fields;
        Write_ (WriteSyncer_writer out) enc ent fields ]
  | multiCore mc =>
      (fix range (mc : list Core) : list Event :=
         match mc with
         | [] => []
         | c' :: mc' => Write c' ent fields ++ range mc'
         end) mc
  | nopCore => []
  end.

(** [CheckedEntry.Write(fields...)]: every core that was added writes. *)
Definition CheckedEntry_Write (cores : list Core) (ent : Entry) (fields : list Field)
  : list Event :=
  flat_map (fun c => Write c ent fields) cores.

End zapcore.

(** ** Package [zap] *)
Module zap.

Definition DebugLevel := zapcore.DebugLevel.
Definition InfoLevel := zapcore.InfoLevel.
Definition WarnLevel := zapcore.WarnLevel.
Definition ErrorLevel := zapcore.ErrorLevel.
Definition DPanicLevel := zapcore.DPanicLevel.
Definition PanicLevel := zapcore.PanicLevel.
Definition FatalLevel := zapcore.FatalLevel.

(** [zap.Int], [zap.String], [zap.Duration] *)
Definition Int (key : string) (val : Z) : zapcore.Field :=
  {| zapcore.Key := key; zapcore.Type_ := zapcore.Int64Type;
     zapcore.Integer := val; zapcore.String_ := "" |}.

Definition String (key : string) (val : string) : zapcore.Field :=
  {| zapcore.Key := key; zapcore.Type_ := zapcore.StringType;
     zapcore.Integer := 0; zapcore.String_ := val |}.

Definition Duration (key : string) (val : Duration) : zapcore.Field :=
  {| zapcore.Key := key; zapcore.Type_ := zapcore.DurationType;
     zapcore.Integer := val; zapcore.String_ := "" |}.

(** [zap.NewProductionEncoderConfig()] *)
Definition NewProductionEncoderConfig `{GoRuntime} : zapcore.EncoderConfig :=
  {| zapcore.TimeKey := "ts";
     zapcore.LevelKey := "level";
     zapcore.NameKey := "logger";
     zapcore.CallerKey := "caller";
     zapcore.FunctionKey := zapcore.OmitKey;
     zapcore.MessageKey := "msg";
     zapcore.StacktraceKey := "stacktrace";
     zapcore.LineEnding := zapcore.DefaultLineEnding;
     zapcore.EncodeLevel := zapcore.LowercaseLevelEncoder;
     zapcore.EncodeTime := zapcore.EpochTimeEncoder;
     zapcore.EncodeDuration := zapcore.SecondsDurationEncoder;
     zapcore.EncodeCaller := zapcore.ShortCallerEncoder |}.

(** [zap.NewDevelopmentEncoderConfig()] *)
Definition NewDevelopmentEncoderConfig `{GoRuntime} : zapcore.EncoderConfig :=
  {| zapcore.TimeKey := "T";
     zapcore.LevelKey := "L";
     zapcore.NameKey := "N";
     zapcore.CallerKey := "C";
     zapcore.FunctionKey := zapcore.OmitKey;
     zapcore.MessageKey := "M";
     zapcore.StacktraceKey := "S";
     zapcore.LineEnding := zapcore.DefaultLineEnding;
     zapcore.EncodeLevel := zapcore.CapitalLevelEncoder;
     zapcore.EncodeTime := zapcore.ISO8601TimeEncoder;
     zapcore.EncodeDuration := zapcore.StringDurationEncoder;
     zapcore.EncodeCaller := zapcore.ShortCallerEncoder |}.

(** [type Logger struct]: the core and the caller-capture switch. *)
Record Logger := {
  core : zapcore.Core;
  name : string;
  addCaller : bool;
}.

Inductive Option := AddCaller.

Definition apply (o : Option) (log : Logger) : Logger :=
  match o with
  | AddCaller => {| core := core log; name := name log; addCaller := true |}
  end.

(** [func New(core zapcore.Core, options ...Option) *Logger], for a
    core that is not nil. *)
Definition New (c : zapcore.Core) (options : list Option) : Logger :=
  fold_left (fun log o => apply o log) options
    {| core := c; name := ""; addCaller := false |}.

(** One logging call [log.Log(lvl, msg, fields...)] (and so [Debug],
    [Info], ..., [Fatal]) at clock reading [now] from call site
    [caller]: the entry is checked against the core, and the cores
    that accepted it write it.  What zap does after the write for the
    levels [DPanic], [Panic] and [Fatal] is not part of the trace. *)
Definition Logger_Log (log : Logger) (now : Time) (caller : EntryCaller)
    (lvl : zapcore.Level) (msg : string) (fields : list zapcore.Field)
  : list zapcore.Event :=
  if (lvl <? zapcore.DPanicLevel) && negb (zapcore.Enabled (core log) lvl) then []
  else
    let ent := {| zapcore.Entry_Level := lvl; zapcore.Entry_Time := now;
                  zapcore.LoggerName := name log; zapcore.Message := msg;
                  zapcore.Caller := {| Defined := false; PC := 0; File := "";
                                       Line := 0; Function := "" |};
                  zapcore.Stack := "" |} in
    let ce := zapcore.Check (core log) ent [] in
    let ent := if addCaller log
               then {| zapcore.Entry_Level := lvl; zapcore.Entry_Time := now;
                       zapcore.LoggerName := name log; zapcore.Message := msg;
                       zapcore.Caller := caller; zapcore.Stack := "" |}
               else ent in
    zapcore.CheckedEntry_Write ce ent fields.

(** A call of a logging method on the global logger [zap.L()]. *)
Record Call := {
  Call_Level : zapcore.Level;
  Call_Message : string;
  Call_Fields : list zapcore.Field;
}.

End zap.

(** ** Packages [net/url], [net/http] and [gin] *)
Module url.

Record URL := {
  Path : string;
  RawQuery : string;
}.

End url.

Module http.

(** [type Request struct]: the fields the middleware reads.  [Header]
    maps canonical header names to their values. *)
Record Request := {
  Method : string;
  URL : url.URL;
  Header : gmap string (list string);
  RemoteAddr : string;
}.

(** [func (h Header) Get(key string) string], for a key that is in
    canonical form already. *)
Definition Header_Get (h : gmap string (list string)) (key : string) : string :=
  match h !! key with
  | Some (v :: _) => v
  | _ => ""
  end.

(** [func (r *Request) UserAgent() string] *)
Definition UserAgent (r : Request) : string := Header_Get (Header r) "User-Agent".

End http.

Module gin.

(** [type ErrorType uint64] *)
Definition ErrorType := Z.
Definition ErrorTypePrivate : ErrorType := Z.shiftl 1 0.
Definition ErrorTypeAny : ErrorType := Z.shiftl 1 64 - 1.

Record Error := {
  Err : string;
  Type_ : ErrorType;
  Meta : option string;
}.

(** [func (msg *Error) IsType(flags ErrorType) bool] *)
Definition IsType (msg : Error) (flags : ErrorType) : bool :=
  0 <? Z.land (Type_ msg) flags.

(** [func (a errorMsgs) ByType(typ ErrorType) errorMsgs] *)
Definition ByType (a : list Error) (typ : ErrorType) : list Error :=
  if decide (typ = ErrorTypeAny) then a
  else List.filter (fun msg => IsType msg typ) a.

(** [type Context struct]: the request, the status the response writer
    holds, and the errors attached so far. *)
Record Context := {
  Request : http.Request;
  Writer_Status : Z;
  Errors : list Error;
}.

(** [Context.ClientIP] and [errorMsgs.String] are gin's own. *)
Class GinRuntime := {
  ClientIP : Context -> string;
  errorMsgs_String : list Error -> string;
}.

End gin.

(** ** Pointers to configuration structs

    [GetLogger] receives a pointer, which may be nil, and
    [setDefaultValue] writes through it.  A heap maps addresses to
    structs; a computation either returns a value and a heap or panics
    (a nil or dangling dereference). *)
Module Ptr.

Definition loc := positive.

(** a pointer: [None] is [nil] *)
Definition pointer := option loc.

Inductive outcome (S A : Type) :=
| Returns (a : A) (h : gmap loc S)
| Panics.
Arguments Returns {S A} a h.
Arguments Panics {S A}.

Definition Go (S A : Type) : Type := gmap loc S -> outcome S A.

Definition ret {S A} (a : A) : Go S A := fun h => Returns a h.

Definition bind {S A B} (x : Go S A) (f : A -> Go S B) : Go S B :=
  fun h => match x h with
           | Returns a h' => f a h'
           | Panics => Panics
           end.

(** [&T{...}]: a fresh address holding the struct *)
Definition new {S} (v : S) : Go S pointer :=
  fun h => let l := fresh (dom h) in Returns (Some l) (<[l := v]> h).

(** [*p] *)
Definition load {S} (p : pointer) : Go S S :=
  fun h => match p with
           | Some l => match h !! l with
                       | Some v => Returns v h
                       | None => Panics
                       end
           | None => Panics
           end.

(** [*p = v] *)
Definition store {S} (p : pointer) (v : S) : Go S unit :=
  fun h => match p with
           | Some l => match h !! l with
                       | Some _ => Returns tt (<[l := v]> h)
                       | None => Panics
                       end
           | None => Panics
           end.

(** a call [f(p)] of a function that reads and writes the struct
    behind [p] *)
Definition call_on {S} (f : S -> S) (p : pointer) : Go S unit :=
  bind (load p) (fun v => store p (f v)).

End Ptr.

Notation "x <-- c1 ;; c2" := (Ptr.bind c1 (fun x => c2))
  (at level 100, c1 at next level, right associativity).

(** ** [log.go]: the configuration and its normalisation *)

Definition logTmFmt : string := "2006-01-02 15:04:05".

(** The entries of the package-level map [m], and the map. *)
Definition m_entries : list (string * zapcore.Level) :=
  [ ("debug", zap.DebugLevel);
    ("info", zap.InfoLevel);
    ("warn", zap.WarnLevel);
    ("error", zap.ErrorLevel);
    ("dpanic", zap.DPanicLevel);
    ("panic", zap.PanicLevel);
    ("fatal", zap.FatalLevel) ].

Definition m : gmap string zapcore.Level := list_to_map m_entries.

(** [type PzlogConfig struct]: the embedded [lumberjack.Logger] and the
    four fields of the package.  A Go [int] is an integer here; the
    program only compares the three limits with zero and stores
    constants, so no operation can leave the range of [int]. *)
Record PzlogConfig := {
  Logger : lumberjack.Logger;
  TimeFormat : string;
  LogLevel : string;
  PrintConsole : bool;
  Encoder : string;
}.

(** Promoted fields of the embedded struct. *)
Definition Filename (c : PzlogConfig) : string := lumberjack.Filename (Logger c).
Definition MaxSize (c : PzlogConfig) : Z := lumberjack.MaxSize (Logger c).
Definition MaxBackups (c : PzlogConfig) : Z := lumberjack.MaxBackups (Logger c).
Definition MaxAge (c : PzlogConfig) : Z := lumberjack.MaxAge (Logger c).

(** Field assignments [config.F = v]. *)
Definition set_Logger (f : lumberjack.Logger -> lumberjack.Logger) (c : PzlogConfig) : PzlogConfig :=
  {| Logger := f (Logger c); TimeFormat := TimeFormat c; LogLevel := LogLevel c;
     PrintConsole := PrintConsole c; Encoder := Encoder c |}.

Definition set_Filename (v : string) : PzlogConfig -> PzlogConfig :=
  set_Logger (fun l =>
    {| lumberjack.Filename := v; lumberjack.MaxSize := lumberjack.MaxSize l;
       lumberjack.MaxAge := lumberjack.MaxAge l; lumberjack.MaxBackups := lumberjack.MaxBackups l;
       lumberjack.LocalTime := lumberjack.LocalTime l; lumberjack.Compress := lumberjack.Compress l |}).

Definition set_MaxSize (v : Z) : PzlogConfig -> PzlogConfig :=
  set_Logger (fun l =>
    {| lumberjack.Filename := lumberjack.Filename l; lumberjack.MaxSize := v;
       lumberjack.MaxAge := lumberjack.MaxAge l; lumberjack.MaxBackups := lumberjack.MaxBackups l;
       lumberjack.LocalTime := lumberjack.LocalTime l; lumberjack.Compress := lumberjack.Compress l |}).

Definition set_MaxBackups (v : Z) : PzlogConfig -> PzlogConfig :=
  set_Logger (fun l =>
    {| lumberjack.Filename := lumberjack.Filename l; lumberjack.MaxSize := lumberjack.MaxSize l;
       lumberjack.MaxAge := lumberjack.MaxAge l; lumberjack.MaxBackups := v;
       lumberjack.LocalTime := lumberjack.LocalTime l; lumberjack.Compress := lumberjack.Compress l |}).

Definition set_MaxAge (v : Z) : PzlogConfig -> PzlogConfig :=
  set_Logger (fun l =>
    {| lumberjack.Filename := lumberjack.Filename l; lumberjack.MaxSize := lumberjack.MaxSize l;
       lumberjack.MaxAge := v; lumberjack.MaxBackups := lumberjack.MaxBackups l;
       lumberjack.LocalTime := lumberjack.LocalTime l; lumberjack.Compress := lumberjack.Compress l |}).

Definition set_TimeFormat (v : string) (c : PzlogConfig) : PzlogConfig :=
  {| Logger := Logger c; TimeFormat := v; LogLevel := LogLevel c;
     PrintConsole := PrintConsole c; Encoder := Encoder c |}.

Definition set_LogLevel (v : string) (c : PzlogConfig) : PzlogConfig :=
  {| Logger := Logger c; TimeFormat := TimeFormat c; LogLevel := v;
     PrintConsole := PrintConsole c; Encoder := Encoder c |}.

Definition set_Encoder (v : string) (c : PzlogConfig) : PzlogConfig :=
  {| Logger := Logger c; TimeFormat := TimeFormat c; LogLevel := LogLevel c;
     PrintConsole := PrintConsole c; Encoder := v |}.

(** [func NewDefaultConfig() *PzlogConfig]: the struct literal; the
    address-of is taken where the function is called. *)
Definition NewDefaultConfig : PzlogConfig :=
  {| Logger := {| lumberjack.Filename := "./logs/pzlog.log";
                  lumberjack.MaxSize := 100;
                  lumberjack.MaxAge := 30;
                  lumberjack.MaxBackups := 10;
                  lumberjack.LocalTime := false;
                  lumberjack.Compress := false |};
     TimeFormat := "";
     LogLevel := "";
     PrintConsole := false;
     Encoder := "" |}.

(** [func setDefaultValue(config *PzlogConfig)]: the struct behind the
    pointer is the state, threaded through the seven statements. *)
Definition setDefaultValue `{GoRuntime} (config : PzlogConfig) : PzlogConfig :=
  let config := if decide (Filename config = "")
                then set_Filename "./logs/pzlog.log" config else config in
  let config := if decide (TimeFormat config = "")
                then set_TimeFormat logTmFmt config else config in
  let config := if MaxSize config <? 0 then set_MaxSize 100 config else config in
  let config := if MaxBackups config <? 0 then set_MaxBackups 10 config else config in
  let config := if MaxAge config <? 0 then set_MaxAge 30 config else config in
  let config := if decide (Encoder config = "")
                then set_Encoder "json" config else config in
  let ok := bool_decide (is_Some (m !! strings.ToLower (LogLevel config))) in
  let config := if bool_decide (LogLevel config = "") || negb ok
                then set_LogLevel "info" config else config in
  config.

(** [func getLevelEnabler(config *PzlogConfig) zapcore.Level] *)
Definition getLevelEnabler `{GoRuntime} (config : PzlogConfig) : zapcore.Level :=
  let level := strings.ToLower (LogLevel config) in
  if decide (level = "debug") then zapcore.DebugLevel
  else if decide (level = "info") then zapcore.InfoLevel
  else if decide (level = "warn") then zapcore.WarnLevel
  else if decide (level = "error") then zapcore.ErrorLevel
  else if decide (level = "dpanic") then zapcore.DPanicLevel
  else if decide (level = "panic") then zapcore.PanicLevel
  else if decide (level = "fatal") then zapcore.FatalLevel
  else zapcore.InfoLevel.

(** ** [log.go]: encoders, sinks and the logger *)

(** [func cEncodeLevel(level zapcore.Level, enc zapcore.PrimitiveArrayEncoder)] *)
Definition cEncodeLevel `{GoRuntime} : zapcore.LevelEncoder :=
  fun level enc => zapcore.AppendString (zapcore.Level_CapitalString level) enc.

(** [func cEncodeTime(t time.Time, enc zapcore.PrimitiveArrayEncoder)] *)
Definition cEncodeTime `{GoRuntime} : zapcore.TimeEncoder :=
  fun t enc => zapcore.AppendString (time_Format t logTmFmt) enc.

(** [func cEncodeCaller(caller zapcore.EntryCaller, enc zapcore.PrimitiveArrayEncoder)] *)
Definition cEncodeCaller `{GoRuntime} : zapcore.CallerEncoder :=
  fun caller enc => zapcore.AppendString (caller_TrimmedPath caller) enc.

(** [func getEncoder(types string) zapcore.Encoder] *)
Definition getEncoder `{GoRuntime} (types : string) : zapcore.Encoder :=
  if decide (types = "console") then
    zapcore.NewConsoleEncoder
      {| zapcore.TimeKey := "ts";
         zapcore.LevelKey := "level";
         zapcore.NameKey := "logger";
         zapcore.CallerKey := "caller_line";
         zapcore.FunctionKey := zapcore.OmitKey;
         zapcore.MessageKey := "msg";
         zapcore.StacktraceKey := "stacktrace";
         zapcore.LineEnding := zapcore.DefaultLineEnding;
         zapcore.EncodeLevel := cEncodeLevel;
         zapcore.EncodeTime := cEncodeTime;
         zapcore.EncodeDuration := zapcore.SecondsDurationEncoder;
         zapcore.EncodeCaller := cEncodeCaller |}
  else
    zapcore.NewJSONEncoder
      {| zapcore.TimeKey := "ts";
         zapcore.LevelKey := "level";
         zapcore.NameKey := "logger";
         zapcore.CallerKey := "caller_line";
         zapcore.FunctionKey := zapcore.OmitKey;
         zapcore.MessageKey := "msg";
         zapcore.StacktraceKey := "stacktrace";
         zapcore.LineEnding := zapcore.DefaultLineEnding;
         zapcore.EncodeLevel := cEncodeLevel;
         zapcore.EncodeTime := cEncodeTime;
         zapcore.EncodeDuration := zapcore.SecondsDurationEncoder;
         zapcore.EncodeCaller := cEncodeCaller |}.

(** [func getConsoleEncoder(types string) zapcore.Encoder]; no
    function of the file calls it. *)
Definition getConsoleEncoder `{GoRuntime} (types : string) : zapcore.Encoder :=
  if decide (types = "console") then
    zapcore.NewConsoleEncoder zap.NewDevelopmentEncoderConfig
  else
    zapcore.NewJSONEncoder zap.NewProductionEncoderConfig.

(** [func getWriteSyncer(config *PzlogConfig) zapcore.WriteSyncer]: a
    new [lumberjack.Logger] with four fields copied, the others zero. *)
Definition getWriteSyncer (config : PzlogConfig) : zapcore.WriteSyncer :=
  let lumberJackLogger :=
    {| lumberjack.Filename := Filename config;
       lumberjack.MaxSize := MaxSize config;
       lumberjack.MaxBackups := MaxBackups config;
       lumberjack.MaxAge := MaxAge config;
       lumberjack.LocalTime := false;
       lumberjack.Compress := false |} in
  zapcore.AddSync (zapcore.lumberjack_Logger lumberJackLogger).

(** [func GetLogger(config *PzlogConfig) *zap.Logger].  The pointer is
    replaced by the address of a fresh default struct when it is nil,
    [setDefaultValue] writes through it, and the three getters read the
    struct it points to. *)
Definition GetLogger `{GoRuntime} (config : Ptr.pointer) : Ptr.Go PzlogConfig zap.Logger :=
  config <-- (match config with
              | None => Ptr.new NewDefaultConfig
              | Some _ => Ptr.ret config
              end) ;;
  _ <-- Ptr.call_on setDefaultValue config ;;
  cfg <-- Ptr.load config ;;
  let Encoder' := getEncoder (Encoder cfg) in
  let WriteSyncer := getWriteSyncer cfg in
  let LevelEnabler := getLevelEnabler cfg in
  let newCore :=
    if PrintConsole cfg then
      zapcore.NewTee
        [ zapcore.NewCore Encoder' WriteSyncer LevelEnabler;
          zapcore.NewCore Encoder' (zapcore.Lock (zapcore.File zapcore.os_Stdout)) LevelEnabler ]
    else
      zapcore.NewCore Encoder' WriteSyncer LevelEnabler in
  Ptr.ret (zap.New newCore [zap.AddCaller]).

(** ** [log.go]: the request middleware *)

(** What a handler works on: the request context [c], the wall clock,
    and the calls made so far on the global logger [zap.L()]. *)
Record Handling := {
  c : gin.Context;
  clock : Time;
  logged : list zap.Call;
}.

(** [zap.L().Info(msg, fields...)] *)
Definition L_Info (msg : string) (fields : list zapcore.Field) (s : Handling) : Handling :=
  {| c := c s; clock := clock s;
     logged := logged s ++ [ {| zap.Call_Level := zap.InfoLevel;
                                zap.Call_Message := msg;
                                zap.Call_Fields := fields |} ] |}.

(** [func GinLogger() gin.HandlerFunc]: the handler it returns, with
    [c.Next()] (the rest of the handler chain) as [Next]. *)
Definition GinLogger `{gin.GinRuntime} (Next : Handling -> Handling) (s : Handling) : Handling :=
  let start := clock s in
  let path := url.Path (http.URL (gin.Request (c s))) in
  let query := url.RawQuery (http.URL (gin.Request (c s))) in
  let s := Next s in
  let cost := clock s - start in
  L_Info path
    [ zap.Int "status" (gin.Writer_Status (c s));
      zap.String "method" (http.Method (gin.Request (c s)));
      zap.String "path" path;
      zap.String "query" query;
      zap.String "ip" (gin.ClientIP (c s));
      zap.String "user-agent" (http.UserAgent (gin.Request (c s)));
      zap.String "errors" (gin.errorMsgs_String (gin.ByType (gin.Errors (c s)) gin.ErrorTypePrivate));
      zap.Duration "cost" cost ]
    s.

(** ** The second copy of [log.go]

    The file carries a second copy of the package in which the
    configuration struct is flat (no embedded [lumberjack.Logger], no
    [Encoder] field), [getEncoder] takes no argument and the console
    core has an encoder of its own.  [logTmFmt], [m] and [GinLogger] are
    the same in both copies. *)
Module Flat.

Record PzlogConfig := {
  Filename : string;
  TimeFormat : string;
  LogLevel : string;
  PrintConsole : bool;
  MaxSize : Z;
  MaxBackups : Z;
  MaxAge : Z;
}.

Definition NewDefaultConfig : PzlogConfig :=
  {| Filename := "./logs/pzlog.log";
     TimeFormat := logTmFmt;
     LogLevel := "";
     PrintConsole := false;
     MaxSize := 100;
     MaxBackups := 10;
     MaxAge := 30 |}.

Definition set_Filename (v : string) (c : PzlogConfig) : PzlogConfig :=
  {| Filename := v; TimeFormat := TimeFormat c; LogLevel := LogLevel c;
     PrintConsole := PrintConsole c; MaxSize := MaxSize c;
     MaxBackups := MaxBackups c; MaxAge := MaxAge c |}.

Definition set_TimeFormat (v : string) (c : PzlogConfig) : PzlogConfig :=
  {| Filename := Filename c; TimeFormat := v; LogLevel := LogLevel c;
     PrintConsole := PrintConsole c; MaxSize := MaxSize c;
     MaxBackups := MaxBackups c; MaxAge := MaxAge c |}.

Definition set_LogLevel (v : string) (c : PzlogConfig) : PzlogConfig :=
  {| Filename := Filename c; TimeFormat := TimeFormat c; LogLevel := v;
     PrintConsole := PrintConsole c; MaxSize := MaxSize c;
     MaxBackups := MaxBackups c; MaxAge := MaxAge c |}.

Definition set_MaxSize (v : Z) (c : PzlogConfig) : PzlogConfig :=
  {| Filename := Filename c; TimeFormat := TimeFormat c; LogLevel := LogLevel c;
     PrintConsole := PrintConsole c; MaxSize := v;
     MaxBackups := MaxBackups c; MaxAge := MaxAge c |}.

Definition set_MaxBackups (v : Z) (c : PzlogConfig) : PzlogConfig :=
  {| Filename := Filename c; TimeFormat := TimeFormat c; LogLevel := LogLevel c;
     PrintConsole := PrintConsole c; MaxSize := MaxSize c;
     MaxBackups := v; MaxAge := MaxAge c |}.

Definition set_MaxAge (v : Z) (c : PzlogConfig) : PzlogConfig :=
  {| Filename := Filename c; TimeFormat := TimeFormat c; LogLevel := LogLevel c;
     PrintConsole := PrintConsole c; MaxSize := MaxSize c;
     MaxBackups := MaxBackups c; MaxAge := v |}.

Definition setDefaultValue `{GoRuntime} (config : PzlogConfig) : PzlogConfig :=
  let config := if decide (Filename config = "")
                then set_Filename "./logs/pzlog.log" config else config in
  let config := if decide (TimeFormat config = "")
                then set_TimeFormat logTmFmt config else config in
  let config := if MaxSize config <? 0 then set_MaxSize 100 config else config in
  let config := if MaxBackups config <? 0 then set_MaxBackups 10 config else config in
  let config := if MaxAge config <? 0 then set_MaxAge 30 config else config in
  let ok := bool_decide (is_Some (m !! strings.ToLower (LogLevel config))) in
  let config := if bool_decide (LogLevel config = "") || negb ok
                then set_LogLevel "info" config else config in
  config.

Definition cEncodeLevel `{GoRuntime} : zapcore.LevelEncoder :=
  fun level enc =>
    zapcore.AppendString ("[" +:+ zapcore.Level_CapitalString level +:+ "]") enc.

Definition cEncodeTime `{GoRuntime} : zapcore.TimeEncoder :=
  fun t enc => zapcore.AppendString ("[" +:+ time_Format t logTmFmt +:+ "]") enc.

Definition cEncodeCaller `{GoRuntime} : zapcore.CallerEncoder :=
  fun caller enc => zapcore.AppendString ("[" +:+ caller_TrimmedPath caller +:+ "]") enc.

Definition getEncoder `{GoRuntime} : zapcore.Encoder :=
  zapcore.NewConsoleEncoder
    {| zapcore.TimeKey := "ts";
       zapcore.LevelKey := "level";
       zapcore.NameKey := "logger";
       zapcore.CallerKey := "caller_line";
       zapcore.FunctionKey := zapcore.OmitKey;
       zapcore.MessageKey := "msg";
       zapcore.StacktraceKey := "stacktrace";
       zapcore.LineEnding := "  ";
       zapcore.EncodeLevel := cEncodeLevel;
       zapcore.EncodeTime := cEncodeTime;
       zapcore.EncodeDuration := zapcore.SecondsDurationEncoder;
       zapcore.EncodeCaller := cEncodeCaller |}.

Definition getConsoleEncoder `{GoRuntime} : zapcore.Encoder :=
  zapcore.NewConsoleEncoder zap.NewDevelopmentEncoderConfig.

Definition GetWriteSyncer (config : PzlogConfig) : zapcore.WriteSyncer :=
  let lumberJackLogger :=
    {| lumberjack.Filename := Filename config;
       lumberjack.MaxSize := MaxSize config;
       lumberjack.MaxBackups := MaxBackups config;
       lumberjack.MaxAge := MaxAge config;
       lumberjack.LocalTime := false;
       lumberjack.Compress := false |} in
  zapcore.AddSync (zapcore.lumberjack_Logger lumberJackLogger).

Definition getLevelEnabler `{GoRuntime} (config : PzlogConfig) : zapcore.Level :=
  let level := strings.ToLower (LogLevel config) in
  if decide (level = "debug") then zapcore.DebugLevel
  else if decide (level = "info") then zapcore.InfoLevel
  else if decide (level = "warn") then zapcore.WarnLevel
  else if decide (level = "error") then zapcore.ErrorLevel
  else if decide (level = "dpanic") then zapcore.DPanicLevel
  else if decide (level = "panic") then zapcore.PanicLevel
  else if decide (level = "fatal") then zapcore.FatalLevel
  else zapcore.InfoLevel.

Definition GetLogger `{GoRuntime} (config : Ptr.pointer) : Ptr.Go PzlogConfig zap.Logger :=
  config <-- (match config with
              | None => Ptr.new NewDefaultConfig
              | Some _ => Ptr.ret config
              end) ;;
  _ <-- Ptr.call_on setDefaultValue config ;;
  cfg <-- Ptr.load config ;;
  let Encoder := getEncoder in
  let WriteSyncer := GetWriteSyncer cfg in
  let LevelEnabler := getLevelEnabler cfg in
  let ConsoleEncoder := getConsoleEncoder in
  let newCore :=
    if PrintConsole cfg then
      zapcore.NewTee
        [ zapcore.NewCore Encoder WriteSyncer LevelEnabler;
          zapcore.NewCore ConsoleEncoder (zapcore.Lock (zapcore.File zapcore.os_Stdout))
            LevelEnabler ]
    else
      zapcore.NewCore Encoder WriteSyncer LevelEnabler in
  Ptr.ret (zap.New newCore [zap.AddCaller]).

End Flat.

(** ** A runtime to run the definitions on examples

    The Unicode mapping leaves its argument alone and a formatted time is
    the layout followed by the instant; the results below do not depend
    on this choice, the worked examples use it. *)
Definition example_runtime : GoRuntime :=
  {| unicode_ToLower_Map := fun s => s;
     time_Format := fun t layout => layout +:+ "@" +:+ pretty t;
     duration_String := fun d => pretty d +:+ "ns";
     caller_TrimmedPath := fun caller => File caller +:+ ":" +:+ pretty (Line caller);
     sprintf_LEVEL := fun l => "LEVEL(" +:+ pretty l +:+ ")";
     sprintf_Level := fun l => "Level(" +:+ pretty l +:+ ")" |}.

Definition example_gin_runtime : gin.GinRuntime :=
  {| gin.ClientIP := fun c => http.RemoteAddr (gin.Request c);
     gin.errorMsgs_String := fun a => String.concat ";" (map gin.Err a) |}.

(** ** Definitions used in the statements *)

(** The level that the map [m] gives a lowered name, info when it has
    none. *)
Definition level_of_name (name : string) : zapcore.Level :=
  default zapcore.InfoLevel (m !! name).

(** The test [ok] of [setDefaultValue]. *)
Definition recognised `{GoRuntime} (name : string) : bool :=
  bool_decide (is_Some (m !! strings.ToLower name)).

(** Sample configurations. *)
Definition config_of (filename : string) (size backups age : Z) (timeformat loglevel : string)
    (printconsole : bool) (encoder : string) : PzlogConfig :=
  {| Logger := {| lumberjack.Filename := filename;
                  lumberjack.MaxSize := size;
                  lumberjack.MaxAge := age;
                  lumberjack.MaxBackups := backups;
                  lumberjack.LocalTime := false;
                  lumberjack.Compress := false |};
     TimeFormat := timeformat;
     LogLevel := loglevel;
     PrintConsole := printconsole;
     Encoder := encoder |}.

Definition config_negative : PzlogConfig := config_of "app.log" (-1) (-5) (-7) "" "" false "".
Definition config_zero : PzlogConfig := config_of "app.log" 0 0 0 "" "WaRn" false "".
Definition config_verbose : PzlogConfig := config_of "app.log" 0 0 0 "" "verbose" false "".

Definition config_clock : PzlogConfig := config_of "app.log" 1 1 1 "15:04:05" "info" false "json".
Definition config_console : PzlogConfig := config_of "app.log" 1 1 1 "" "warn" true "".

(** The two layouts an encoder can have. *)
Inductive Variant := HumanReadable | MachineReadable.

Definition variant_of (e : zapcore.Encoder) : Variant :=
  match e with
  | zapcore.consoleEncoder _ => HumanReadable
  | zapcore.jsonEncoder _ => MachineReadable
  end.

(** The core and the logger that [GetLogger] wires from the struct it
    reads after [setDefaultValue] has run. *)
Definition core_of `{GoRuntime} (cfg : PzlogConfig) : zapcore.Core :=
  if PrintConsole cfg then
    zapcore.multiCore
      [ zapcore.ioCore (getLevelEnabler cfg) (getEncoder (Encoder cfg)) (getWriteSyncer cfg);
        zapcore.ioCore (getLevelEnabler cfg) (getEncoder (Encoder cfg))
          (zapcore.Lock (zapcore.File zapcore.os_Stdout)) ]
  else
    zapcore.ioCore (getLevelEnabler cfg) (getEncoder (Encoder cfg)) (getWriteSyncer cfg).

Definition logger_of `{GoRuntime} (cfg : PzlogConfig) : zap.Logger :=
  {| zap.core := core_of cfg; zap.name := ""; zap.addCaller := true |}.

(** The entry that a logger with caller capture hands to its cores. *)
Definition entry_of (now : Time) (caller : EntryCaller) (lvl : zapcore.Level) (msg : string)
  : zapcore.Entry :=
  {| zapcore.Entry_Level := lvl; zapcore.Entry_Time := now; zapcore.LoggerName := "";
     zapcore.Message := msg; zapcore.Caller := caller; zapcore.Stack := "" |}.

(** The rotating file that [getWriteSyncer] opens for a configuration. *)
Definition file_of (cfg : PzlogConfig) : zapcore.Writer :=
  zapcore.lumberjack_Logger
    {| lumberjack.Filename := Filename cfg;
       lumberjack.MaxSize := MaxSize cfg;
       lumberjack.MaxAge := MaxAge cfg;
       lumberjack.MaxBackups := MaxBackups cfg;
       lumberjack.LocalTime := false;
       lumberjack.Compress := false |}.

(** A tee of two cores whose encoders differ: the second core has a
    format of its own. *)
Definition separately_encoded (c : zapcore.Core) : Prop :=
  exists enab1 enc1 out1 enab2 enc2 out2,
    c = zapcore.multiCore [zapcore.ioCore enab1 enc1 out1; zapcore.ioCore enab2 enc2 out2] /\
    enc1 <> enc2.

(** A sample request and a sample rest of the handler chain. *)
Definition request_items : Handling :=
  {| c := {| gin.Request :=
               {| http.Method := "GET";
                  http.URL := {| url.Path := "/items"; url.RawQuery := "id=5" |};
                  http.Header := {[ "User-Agent" := ["curl/8"] ]};
                  http.RemoteAddr := "10.0.0.1:4242" |};
             gin.Writer_Status := 200;
             gin.Errors := [] |};
     clock := 1000;
     logged := [] |}.

Definition request_chain (s : Handling) : Handling :=
  {| c := {| gin.Request :=
               {| http.Method := http.Method (gin.Request (c s));
                  http.URL := {| url.Path := "/rewritten"; url.RawQuery := "" |};
                  http.Header := http.Header (gin.Request (c s));
                  http.RemoteAddr := http.RemoteAddr (gin.Request (c s)) |};
             gin.Writer_Status := 404;
             gin.Errors := gin.Errors (c s) ++
                           [ {| gin.Err := "not found"; gin.Type_ := gin.ErrorTypePrivate;
                                gin.Meta := None |};
                             {| gin.Err := "shown to the client"; gin.Type_ := 2;
                                gin.Meta := None |} ] |};
     clock := clock s + 12000000;
     logged := logged s |}.

(** A configuration on which no guard of [setDefaultValue] fires. *)
Definition normal `{GoRuntime} (config : PzlogConfig) : Prop :=
  Filename config <> "" /\
  TimeFormat config <> "" /\
  0 <= MaxSize config /\
  0 <= MaxBackups config /\
  0 <= MaxAge config /\
  Encoder config <> "" /\
  LogLevel config <> "" /\
  is_Some (m !! strings.ToLower (LogLevel config)).

(** The writers that a trace writes to, and the encoders it runs, in
    order. *)
Definition writers (trace : list zapcore.Event) : list zapcore.Writer :=
  omap (fun ev => match ev with
                  | zapcore.Write_ w _ _ _ => Some w
                  | zapcore.EncodeEntry _ _ _ => None
                  end) trace.

Definition encoders (trace : list zapcore.Event) : list zapcore.Encoder :=
  omap (fun ev => match ev with
                  | zapcore.EncodeEntry enc _ _ => Some enc
                  | zapcore.Write_ _ _ _ _ => None
                  end) trace.

(** The encoders held by the cores of a core. *)
Fixpoint core_encoders (c : zapcore.Core) : list zapcore.Encoder :=
  match c with
  | zapcore.ioCore _ enc _ => [enc]
  | zapcore.multiCore mc => flat_map core_encoders mc
  | zapcore.nopCore => []
  end.

(** A struct of the second copy of the file as a struct of the first:
    the rotation fields move into the embedded logger and the format
    name, which the second copy does not have, is given. *)
Definition nest (config : Flat.PzlogConfig) (encoder : string) : PzlogConfig :=
  {| Logger := {| lumberjack.Filename := Flat.Filename config;
                  lumberjack.MaxSize := Flat.MaxSize config;
                  lumberjack.MaxAge := Flat.MaxAge config;
                  lumberjack.MaxBackups := Flat.MaxBackups config;
                  lumberjack.LocalTime := false;
                  lumberjack.Compress := false |};
     TimeFormat := Flat.TimeFormat config;
     LogLevel := Flat.LogLevel config;
     PrintConsole := Flat.PrintConsole config;
     Encoder := encoder |}.

Definition config_compress : PzlogConfig :=
  {| Logger := {| lumberjack.Filename := "";
                  lumberjack.MaxSize := -3;
                  lumberjack.MaxAge := 0;
                  lumberjack.MaxBackups := 4;
                  lumberjack.LocalTime := true;
                  lumberjack.Compress := true |};
     TimeFormat := "";
     LogLevel := "ERROR";
     PrintConsole := false;
     Encoder := "console" |}.

Definition flat_config_console : Flat.PzlogConfig :=
  {| Flat.Filename := "app.log"; Flat.TimeFormat := ""; Flat.LogLevel := "Debug";
     Flat.PrintConsole := true; Flat.MaxSize := 1; Flat.MaxBackups := -1; Flat.MaxAge := 0 |}.

Definition caller_main : EntryCaller :=
  {| Defined := true; PC := 0; File := "main.go"; Line := 7; Function := "main.main" |}.

(** * Properties *)

(** ** The level table and [strings.ToLower] *)

Lemma m_lookup_entries (k : string) (l : zapcore.Level) :
  m !! k = Some l <-> (k, l) ∈ m_entries.
Proof.
  unfold m. rewrite <- elem_of_list_to_map; [reflexivity|].
  apply (bool_decide_unpack _). vm_compute. reflexivity.
Qed.

Lemma m_lookup_None (k : string) :
  m !! k = None <-> (forall n l, (n, l) ∈ m_entries -> k <> n).
Proof.
  split.
  - intros Hk n l Hin ->. apply m_lookup_entries in Hin. congruence.
  - intros Hk. destruct (m !! k) as [l|] eqn:E; [|reflexivity].
    apply m_lookup_entries in E. exfalso. exact (Hk k l E eq_refl).
Qed.

(** On a string of ASCII bytes [ToLower] is the byte-wise lowering,
    whatever the runtime. *)
Lemma lowerBytes_no_upper (s : string) :
  strings.hasUpper s = false -> strings.lowerBytes s = s.
Proof.
  induction s as [|a s IH]; simpl; [reflexivity|].
  intros H. apply orb_false_iff in H as [Ha Hs].
  unfold strings.lowerByte. rewrite Ha, (IH Hs). reflexivity.
Qed.

Lemma ToLower_ascii `{GoRuntime} (s : string) :
  strings.isASCII s = true -> strings.ToLower s = strings.lowerBytes s.
Proof.
  intros Hs. unfold strings.ToLower. rewrite Hs.
  destruct (strings.hasUpper s) eqn:E; [reflexivity|].
  symmetry. apply lowerBytes_no_upper, E.
Qed.

(** The switch of [getLevelEnabler] and the map [m] agree. *)
Lemma switch_level_of_name (level : string) :
  (if decide (level = "debug") then zapcore.DebugLevel
   else if decide (level = "info") then zapcore.InfoLevel
   else if decide (level = "warn") then zapcore.WarnLevel
   else if decide (level = "error") then zapcore.ErrorLevel
   else if decide (level = "dpanic") then zapcore.DPanicLevel
   else if decide (level = "panic") then zapcore.PanicLevel
   else if decide (level = "fatal") then zapcore.FatalLevel
   else zapcore.InfoLevel) = level_of_name level.
Proof.
  unfold level_of_name.
  repeat (case_decide; [subst; reflexivity|]).
  assert (m !! level = None) as ->; [|reflexivity].
  apply m_lookup_None. intros n l Hin ->.
  unfold m_entries in Hin.
  repeat (apply elem_of_cons in Hin as [Hin|Hin]; [congruence|]).
  apply elem_of_nil in Hin. exact Hin.
Qed.

Lemma getLevelEnabler_lookup `{GoRuntime} (config : PzlogConfig) :
  getLevelEnabler config = level_of_name (strings.ToLower (LogLevel config)).
Proof. unfold getLevelEnabler. apply switch_level_of_name. Qed.

(** ** [setDefaultValue], field by field *)

Lemma recognised_empty `{GoRuntime} : recognised "" = false.
Proof. reflexivity. Qed.

Lemma recognised_info `{GoRuntime} : recognised "info" = true.
Proof. reflexivity. Qed.

(** Field reads after field writes, without unfolding anything else. *)
Ltac fields :=
  cbn [Logger TimeFormat LogLevel PrintConsole Encoder
       Filename MaxSize MaxBackups MaxAge
       lumberjack.Filename lumberjack.MaxSize lumberjack.MaxAge
       lumberjack.MaxBackups lumberjack.LocalTime lumberjack.Compress
       set_Logger set_Filename set_MaxSize set_MaxBackups set_MaxAge
       set_TimeFormat set_LogLevel set_Encoder
       Flat.Filename Flat.TimeFormat Flat.LogLevel Flat.PrintConsole
       Flat.MaxSize Flat.MaxBackups Flat.MaxAge
       Flat.set_Filename Flat.set_TimeFormat Flat.set_LogLevel
       Flat.set_MaxSize Flat.set_MaxBackups Flat.set_MaxAge].

(** The struct that [setDefaultValue] leaves behind the pointer. *)
Lemma setDefaultValue_eq `{GoRuntime} (config : PzlogConfig) :
  setDefaultValue config =
  {| Logger :=
       {| lumberjack.Filename :=
            if decide (Filename config = "") then "./logs/pzlog.log" else Filename config;
          lumberjack.MaxSize := if MaxSize config <? 0 then 100 else MaxSize config;
          lumberjack.MaxAge := if MaxAge config <? 0 then 30 else MaxAge config;
          lumberjack.MaxBackups := if MaxBackups config <? 0 then 10 else MaxBackups config;
          lumberjack.LocalTime := lumberjack.LocalTime (Logger config);
          lumberjack.Compress := lumberjack.Compress (Logger config) |};
     TimeFormat := if decide (TimeFormat config = "") then logTmFmt else TimeFormat config;
     LogLevel := if bool_decide (LogLevel config = "") || negb (recognised (LogLevel config))
                 then "info" else LogLevel config;
     PrintConsole := PrintConsole config;
     Encoder := if decide (Encoder config = "") then "json" else Encoder config |}.
Proof.
  destruct config as [[fn ms ma mb lt cp] tf ll pc en].
  unfold setDefaultValue, recognised. cbv zeta. fields.
  destruct (decide (fn = "")); fields.
  all: destruct (decide (tf = "")); fields.
  all: destruct (ms <? 0); fields.
  all: destruct (mb <? 0); fields.
  all: destruct (ma <? 0); fields.
  all: destruct (decide (en = "")); fields.
  all: destruct (bool_decide (ll = "") || negb (bool_decide (is_Some (m !! strings.ToLower ll)))).
  all: reflexivity.
Qed.

Lemma Flat_setDefaultValue_eq `{GoRuntime} (config : Flat.PzlogConfig) :
  Flat.setDefaultValue config =
  {| Flat.Filename :=
       if decide (Flat.Filename config = "") then "./logs/pzlog.log" else Flat.Filename config;
     Flat.TimeFormat :=
       if decide (Flat.TimeFormat config = "") then logTmFmt else Flat.TimeFormat config;
     Flat.LogLevel :=
       if bool_decide (Flat.LogLevel config = "") || negb (recognised (Flat.LogLevel config))
       then "info" else Flat.LogLevel config;
     Flat.PrintConsole := Flat.PrintConsole config;
     Flat.MaxSize := if Flat.MaxSize config <? 0 then 100 else Flat.MaxSize config;
     Flat.MaxBackups := if Flat.MaxBackups config <? 0 then 10 else Flat.MaxBackups config;
     Flat.MaxAge := if Flat.MaxAge config <? 0 then 30 else Flat.MaxAge config |}.
Proof.
  destruct config as [fn tf ll pc ms mb ma].
  unfold Flat.setDefaultValue, recognised. cbv zeta. fields.
  destruct (decide (fn = "")); fields.
  all: destruct (decide (tf = "")); fields.
  all: destruct (ms <? 0); fields.
  all: destruct (mb <? 0); fields.
  all: destruct (ma <? 0); fields.
  all: destruct (bool_decide (ll = "") || negb (bool_decide (is_Some (m !! strings.ToLower ll)))).
  all: reflexivity.
Qed.

(** Each guard of [setDefaultValue] is false on the value it writes. *)
Lemma default_string_stable (d s : string) :
  d <> "" ->
  (let s' := if decide (s = "") then d else s in if decide (s' = "") then d else s') =
  if decide (s = "") then d else s.
Proof. intros Hd. cbv zeta. repeat case_decide; congruence. Qed.

Lemma default_int_stable (d x : Z) :
  0 <= d ->
  (let x' := if x <? 0 then d else x in if x' <? 0 then d else x') =
  if x <? 0 then d else x.
Proof.
  intros Hd. cbv zeta. destruct (x <? 0) eqn:E; [|rewrite E; reflexivity].
  destruct (d <? 0) eqn:E'; [lia|reflexivity].
Qed.

Lemma default_level_stable `{GoRuntime} (ll : string) :
  (let ll' := if bool_decide (ll = "") || negb (recognised ll) then "info" else ll in
   if bool_decide (ll' = "") || negb (recognised ll') then "info" else ll') =
  if bool_decide (ll = "") || negb (recognised ll) then "info" else ll.
Proof.
  cbv zeta.
  destruct (bool_decide (ll = "") || negb (recognised ll)) eqn:E.
  - destruct (bool_decide ("info" = "") || negb (recognised "info")); reflexivity.
  - rewrite E. reflexivity.
Qed.

(** ** Normalisation *)

(** C7.  [setDefaultValue] is idempotent: normalising a configuration
    that was normalised already gives the same configuration.  This
    holds for both copies of the function in [log.go]. *)
Theorem setDefaultValue_idempotent `{GoRuntime} :
  (forall config : PzlogConfig,
     setDefaultValue (setDefaultValue config) = setDefaultValue config) /\
  (forall config : Flat.PzlogConfig,
     Flat.setDefaultValue (Flat.setDefaultValue config) = Flat.setDefaultValue config).
Proof.
  split; intros config.
  - rewrite (setDefaultValue_eq (setDefaultValue config)).
    rewrite (setDefaultValue_eq config). fields.
    pose proof (default_string_stable "./logs/pzlog.log" (Filename config)) as HF.
    pose proof (default_string_stable logTmFmt (TimeFormat config)) as HT.
    pose proof (default_string_stable "json" (Encoder config)) as HE.
    pose proof (default_int_stable 100 (MaxSize config)) as HS.
    pose proof (default_int_stable 10 (MaxBackups config)) as HB.
    pose proof (default_int_stable 30 (MaxAge config)) as HA.
    pose proof (default_level_stable (LogLevel config)) as HL.
    cbv zeta in HF, HT, HE, HS, HB, HA, HL.
    rewrite HF, HT, HE, HS, HB, HA, HL by (discriminate || lia).
    reflexivity.
  - rewrite (Flat_setDefaultValue_eq (Flat.setDefaultValue config)).
    rewrite (Flat_setDefaultValue_eq config). fields.
    pose proof (default_string_stable "./logs/pzlog.log" (Flat.Filename config)) as HF.
    pose proof (default_string_stable logTmFmt (Flat.TimeFormat config)) as HT.
    pose proof (default_int_stable 100 (Flat.MaxSize config)) as HS.
    pose proof (default_int_stable 10 (Flat.MaxBackups config)) as HB.
    pose proof (default_int_stable 30 (Flat.MaxAge config)) as HA.
    pose proof (default_level_stable (Flat.LogLevel config)) as HL.
    cbv zeta in HF, HT, HS, HB, HA, HL.
    rewrite HF, HT, HS, HB, HA, HL by (discriminate || lia).
    reflexivity.
Qed.

Lemma setDefaultValue_LogLevel `{GoRuntime} (config : PzlogConfig) :
  LogLevel (setDefaultValue config) =
  if bool_decide (LogLevel config = "") || negb (recognised (LogLevel config))
  then "info" else LogLevel config.
Proof. rewrite setDefaultValue_eq. reflexivity. Qed.

Lemma recognised_lookup `{GoRuntime} (name : string) (l : zapcore.Level) :
  m !! strings.ToLower name = Some l -> recognised name = true /\ name <> "".
Proof.
  intros Hl. split.
  - unfold recognised. apply bool_decide_eq_true. rewrite Hl. eauto.
  - intros ->. discriminate Hl.
Qed.

Lemma unrecognised_lookup `{GoRuntime} (name : string) :
  m !! strings.ToLower name = None -> recognised name = false.
Proof.
  intros Hl. unfold recognised. apply bool_decide_eq_false.
  rewrite Hl. intros [x Hx]. discriminate Hx.
Qed.

(** The outcome of normalisation on the level name, by cases on the
    lookup that [setDefaultValue] makes. *)
Lemma setDefaultValue_level `{GoRuntime} (config : PzlogConfig) :
  match m !! strings.ToLower (LogLevel config) with
  | Some l => LogLevel (setDefaultValue config) = LogLevel config /\
              getLevelEnabler (setDefaultValue config) = l
  | None => LogLevel (setDefaultValue config) = "info" /\
            getLevelEnabler (setDefaultValue config) = zapcore.InfoLevel
  end.
Proof.
  rewrite getLevelEnabler_lookup, setDefaultValue_LogLevel.
  destruct (m !! strings.ToLower (LogLevel config)) as [l|] eqn:E.
  - destruct (recognised_lookup _ _ E) as [-> Hne].
    rewrite bool_decide_eq_false_2 by exact Hne. cbn [orb negb].
    split; [reflexivity|]. unfold level_of_name. rewrite E. reflexivity.
  - rewrite (unrecognised_lookup _ E), orb_true_r. split; reflexivity.
Qed.

(** C6.  Normalisation replaces a negative max size, max backups or max
    age by 100, 10 and 30, and leaves a zero in any of the three fields
    as it is. *)
Theorem setDefaultValue_rotation_limits `{GoRuntime} (config : PzlogConfig) :
  (MaxSize config < 0 -> MaxSize (setDefaultValue config) = 100) /\
  (MaxBackups config < 0 -> MaxBackups (setDefaultValue config) = 10) /\
  (MaxAge config < 0 -> MaxAge (setDefaultValue config) = 30) /\
  (MaxSize config = 0 -> MaxSize (setDefaultValue config) = 0) /\
  (MaxBackups config = 0 -> MaxBackups (setDefaultValue config) = 0) /\
  (MaxAge config = 0 -> MaxAge (setDefaultValue config) = 0).
Proof.
  rewrite setDefaultValue_eq. fields.
  repeat split; intros Hx.
  1-3: apply Z.ltb_lt in Hx; rewrite Hx; reflexivity.
  all: rewrite Hx; reflexivity.
Qed.

(** C5.  The seven names debug, info, warn, error, dpanic, panic and
    fatal are the recognised level names, compared after
    [strings.ToLower] (which on ASCII input lowers the letters A-Z): a
    configuration whose lowered level name is one of them keeps its
    level name and gets that level; a configuration whose level name is
    empty or lowers to anything else gets the level name info and the
    level info. *)
Theorem level_names_recognised `{GoRuntime} (config : PzlogConfig) :
  let name := strings.ToLower (LogLevel config) in
  m_entries.*1 = ["debug"; "info"; "warn"; "error"; "dpanic"; "panic"; "fatal"] /\
  (strings.isASCII (LogLevel config) = true ->
     name = strings.lowerBytes (LogLevel config)) /\
  (forall n l, (n, l) ∈ m_entries -> name = n ->
     LogLevel (setDefaultValue config) = LogLevel config /\
     getLevelEnabler (setDefaultValue config) = l) /\
  ((LogLevel config = "" \/ forall n l, (n, l) ∈ m_entries -> name <> n) ->
     LogLevel (setDefaultValue config) = "info" /\
     getLevelEnabler (setDefaultValue config) = zapcore.InfoLevel).
Proof.
  cbv zeta. pose proof (setDefaultValue_level config) as Hl.
  split; [reflexivity|]. split; [apply ToLower_ascii|]. split.
  - intros n l Hin Hn. apply m_lookup_entries in Hin.
    rewrite Hn, Hin in Hl. exact Hl.
  - intros Hno.
    assert (m !! strings.ToLower (LogLevel config) = None) as E.
    { destruct Hno as [-> | Hno]; [reflexivity|]. apply m_lookup_None, Hno. }
    rewrite E in Hl. exact Hl.
Qed.

Lemma setDefaultValue_rotation_limits_witness :
  let config := @setDefaultValue example_runtime config_negative in
  let config' := @setDefaultValue example_runtime config_zero in
  (MaxSize config = 100 /\ MaxBackups config = 10 /\ MaxAge config = 30) /\
  (MaxSize config' = 0 /\ MaxBackups config' = 0 /\ MaxAge config' = 0).
Proof.
  destruct (@setDefaultValue_rotation_limits example_runtime config_negative)
    as (H1 & H2 & H3 & _).
  destruct (@setDefaultValue_rotation_limits example_runtime config_zero)
    as (_ & _ & _ & H4 & H5 & H6).
  cbv zeta.
  refine (conj (conj (H1 _) (conj (H2 _) (H3 _))) (conj (H4 _) (conj (H5 _) (H6 _))));
    reflexivity.
Defined.

Lemma level_names_recognised_witness :
  (LogLevel (@setDefaultValue example_runtime config_zero) = "WaRn" /\
   @getLevelEnabler example_runtime (@setDefaultValue example_runtime config_zero)
     = zapcore.WarnLevel) /\
  (LogLevel (@setDefaultValue example_runtime config_verbose) = "info" /\
   @getLevelEnabler example_runtime (@setDefaultValue example_runtime config_verbose)
     = zapcore.InfoLevel) /\
  (LogLevel (@setDefaultValue example_runtime config_negative) = "info" /\
   @getLevelEnabler example_runtime (@setDefaultValue example_runtime config_negative)
     = zapcore.InfoLevel).
Proof.
  destruct (@level_names_recognised example_runtime config_zero) as (_ & Hlow & Hrec & _).
  destruct (@level_names_recognised example_runtime config_verbose) as (_ & _ & _ & Hother).
  destruct (@level_names_recognised example_runtime config_negative) as (_ & _ & _ & Hempty).
  split; [|split].
  - apply (Hrec "warn" zapcore.WarnLevel).
    + unfold m_entries. apply list_elem_of_In. simpl. tauto.
    + rewrite Hlow; reflexivity.
  - apply Hother. right. intros n l Hin.
    unfold m_entries in Hin.
    repeat (apply elem_of_cons in Hin as [Hin|Hin]; [inversion Hin; subst; discriminate|]).
    apply elem_of_nil in Hin. destruct Hin.
  - apply Hempty. left. reflexivity.
Defined.

(** ** Encoder selection *)

(** C8.  [getEncoder] returns one of the two encoders for every format
    name: the console encoder for the name console, the JSON encoder for
    every other name; after normalisation an empty format name has
    become json and selects the JSON encoder. *)
Theorem getEncoder_two_variants `{GoRuntime} :
  (forall types : string,
     variant_of (getEncoder types) =
     if decide (types = "console") then HumanReadable else MachineReadable) /\
  (forall config : PzlogConfig,
     Encoder (setDefaultValue config) =
       (if decide (Encoder config = "") then "json" else Encoder config) /\
     variant_of (getEncoder (Encoder (setDefaultValue config))) =
       if decide (Encoder config = "console") then HumanReadable else MachineReadable).
Proof.
  assert (forall types : string,
     variant_of (getEncoder types) =
     if decide (types = "console") then HumanReadable else MachineReadable) as Hsel.
  { intros types. unfold getEncoder. case_decide; reflexivity. }
  split; [exact Hsel|].
  intros config. rewrite Hsel, setDefaultValue_eq. fields.
  split; [reflexivity|].
  destruct (decide (Encoder config = "")) as [->|Hne]; [reflexivity|].
  reflexivity.
Qed.

(** C2 (what the code does).  Every encoder that [getEncoder] returns
    renders the time of a record with the constant layout [logTmFmt];
    the [TimeFormat] of the configuration is not read, so a configuration
    whose normalised [TimeFormat] is 15:04:05 still gets timestamps in
    the layout 2006-01-02 15:04:05.  The second copy of the file does the
    same inside brackets. *)
Theorem timestamp_layout_is_logTmFmt `{GoRuntime} :
  (forall (config : PzlogConfig) (t : Time) (enc : zapcore.PrimitiveArrayEncoder),
     zapcore.EncodeTime (zapcore.Encoder_config (getEncoder (Encoder (setDefaultValue config))))
       t enc = zapcore.AppendString (time_Format t logTmFmt) enc) /\
  (forall (t : Time) (enc : zapcore.PrimitiveArrayEncoder),
     zapcore.EncodeTime (zapcore.Encoder_config Flat.getEncoder) t enc =
     zapcore.AppendString ("[" +:+ time_Format t logTmFmt +:+ "]") enc) /\
  TimeFormat (setDefaultValue config_clock) = "15:04:05" /\
  logTmFmt = "2006-01-02 15:04:05".
Proof.
  split; [|split; [|split]]; try reflexivity.
  intros config t enc. unfold getEncoder. case_decide; reflexivity.
Qed.

(** At the clock configuration the example runtime shows the two
    renderings side by side. *)
Example timestamp_at_config_clock :
  let config := @setDefaultValue example_runtime config_clock in
  zapcore.EncodeTime (zapcore.Encoder_config (@getEncoder example_runtime (Encoder config)))
    1700000000 [] = [zapcore.PString "2006-01-02 15:04:05@1700000000"] /\
  @time_Format example_runtime 1700000000 (TimeFormat config) = "15:04:05@1700000000".
Proof. split; reflexivity. Qed.

(** ** Running [GetLogger] *)

(** On a pointer to a struct, [GetLogger] overwrites the struct with its
    normal form and wires the logger from what it then reads. *)
Lemma GetLogger_at `{GoRuntime} (h : gmap Ptr.loc PzlogConfig) (l : Ptr.loc)
    (config : PzlogConfig) :
  h !! l = Some config ->
  GetLogger (Some l) h =
  Ptr.Returns (logger_of (setDefaultValue config)) (<[l := setDefaultValue config]> h).
Proof.
  intros Hl.
  unfold GetLogger, Ptr.call_on, Ptr.bind, Ptr.ret, Ptr.load, Ptr.store.
  rewrite Hl. cbv beta iota. rewrite Hl. cbv beta iota.
  rewrite lookup_insert_eq. cbv beta iota.
  unfold logger_of, core_of, zap.New, zapcore.NewTee, zapcore.NewCore.
  generalize (setDefaultValue config). intros cfg.
  destruct (PrintConsole cfg); reflexivity.
Qed.

(** On nil, the struct is a fresh default one. *)
Lemma GetLogger_nil `{GoRuntime} (h : gmap Ptr.loc PzlogConfig) :
  GetLogger None h =
  Ptr.Returns (logger_of (setDefaultValue NewDefaultConfig))
    (<[fresh (dom h) := setDefaultValue NewDefaultConfig]> h).
Proof.
  unfold GetLogger, Ptr.call_on, Ptr.bind, Ptr.ret, Ptr.load, Ptr.store, Ptr.new.
  cbv beta iota zeta. rewrite lookup_insert_eq. cbv beta iota.
  rewrite lookup_insert_eq. cbv beta iota.
  rewrite lookup_insert_eq, insert_insert_eq. cbv beta iota.
  unfold logger_of, core_of, zap.New, zapcore.NewTee, zapcore.NewCore.
  generalize (setDefaultValue NewDefaultConfig). intros cfg.
  destruct (PrintConsole cfg); reflexivity.
Qed.

Lemma getWriteSyncer_writer (cfg : PzlogConfig) :
  zapcore.WriteSyncer_writer (getWriteSyncer cfg) = file_of cfg.
Proof. reflexivity. Qed.

(** ** One logging call on a core and on a tee of two cores *)

Lemma Logger_Log_ioCore (enab : zapcore.Level) (enc : zapcore.Encoder)
    (out : zapcore.WriteSyncer) (now : Time) (caller : EntryCaller)
    (lvl : zapcore.Level) (msg : string) (fields : list zapcore.Field) :
  zap.Logger_Log
    {| zap.core := zapcore.ioCore enab enc out; zap.name := ""; zap.addCaller := true |}
    now caller lvl msg fields =
  if enab <=? lvl then
    [ zapcore.EncodeEntry enc (entry_of now caller lvl msg) fields;
      zapcore.Write_ (zapcore.WriteSyncer_writer out) enc (entry_of now caller lvl msg) fields ]
  else [].
Proof.
  unfold zap.Logger_Log, zapcore.CheckedEntry_Write, entry_of. cbn.
  unfold zapcore.Level_Enabled.
  destruct (enab <=? lvl), (lvl <? zapcore.DPanicLevel); reflexivity.
Qed.

Lemma Logger_Log_tee (enab : zapcore.Level) (enc1 enc2 : zapcore.Encoder)
    (out1 out2 : zapcore.WriteSyncer) (now : Time) (caller : EntryCaller)
    (lvl : zapcore.Level) (msg : string) (fields : list zapcore.Field) :
  zap.Logger_Log
    {| zap.core := zapcore.multiCore [zapcore.ioCore enab enc1 out1; zapcore.ioCore enab enc2 out2];
       zap.name := ""; zap.addCaller := true |}
    now caller lvl msg fields =
  if enab <=? lvl then
    [ zapcore.EncodeEntry enc1 (entry_of now caller lvl msg) fields;
      zapcore.Write_ (zapcore.WriteSyncer_writer out1) enc1 (entry_of now caller lvl msg) fields;
      zapcore.EncodeEntry enc2 (entry_of now caller lvl msg) fields;
      zapcore.Write_ (zapcore.WriteSyncer_writer out2) enc2 (entry_of now caller lvl msg) fields ]
  else [].
Proof.
  unfold zap.Logger_Log, zapcore.CheckedEntry_Write, entry_of. cbn.
  unfold zapcore.Level_Enabled.
  destruct (enab <=? lvl), (lvl <? zapcore.DPanicLevel); reflexivity.
Qed.

(** A logging call on the logger that [GetLogger] returns. *)
Lemma Logger_Log_logger_of `{GoRuntime} (cfg : PzlogConfig) (now : Time) (caller : EntryCaller)
    (lvl : zapcore.Level) (msg : string) (fields : list zapcore.Field) :
  let enc := getEncoder (Encoder cfg) in
  let ent := entry_of now caller lvl msg in
  zap.Logger_Log (logger_of cfg) now caller lvl msg fields =
  if getLevelEnabler cfg <=? lvl then
    if PrintConsole cfg then
      [ zapcore.EncodeEntry enc ent fields; zapcore.Write_ (file_of cfg) enc ent fields;
        zapcore.EncodeEntry enc ent fields; zapcore.Write_ zapcore.os_Stdout enc ent fields ]
    else
      [ zapcore.EncodeEntry enc ent fields; zapcore.Write_ (file_of cfg) enc ent fields ]
  else [].
Proof.
  cbv zeta. unfold logger_of, core_of.
  destruct (PrintConsole cfg).
  - rewrite Logger_Log_tee. reflexivity.
  - rewrite Logger_Log_ioCore. reflexivity.
Qed.

(** ** The composed cores *)

(** The second copy of [GetLogger] on a pointer to a struct. *)
Lemma Flat_GetLogger_at `{GoRuntime} (h : gmap Ptr.loc Flat.PzlogConfig) (l : Ptr.loc)
    (config : Flat.PzlogConfig) :
  h !! l = Some config ->
  let cfg := Flat.setDefaultValue config in
  Flat.GetLogger (Some l) h =
  Ptr.Returns
    {| zap.core :=
         if Flat.PrintConsole cfg then
           zapcore.multiCore
             [ zapcore.ioCore (Flat.getLevelEnabler cfg) Flat.getEncoder (Flat.GetWriteSyncer cfg);
               zapcore.ioCore (Flat.getLevelEnabler cfg) Flat.getConsoleEncoder
                 (zapcore.Lock (zapcore.File zapcore.os_Stdout)) ]
         else
           zapcore.ioCore (Flat.getLevelEnabler cfg) Flat.getEncoder (Flat.GetWriteSyncer cfg);
       zap.name := ""; zap.addCaller := true |}
    (<[l := cfg]> h).
Proof.
  intros Hl. cbv zeta.
  unfold Flat.GetLogger, Ptr.call_on, Ptr.bind, Ptr.ret, Ptr.load, Ptr.store.
  rewrite Hl. cbv beta iota. rewrite Hl. cbv beta iota.
  rewrite lookup_insert_eq. cbv beta iota.
  unfold zap.New, zapcore.NewTee, zapcore.NewCore.
  generalize (Flat.setDefaultValue config). intros cfg.
  destruct (Flat.PrintConsole cfg); reflexivity.
Qed.

(** C1 (as the code has it).  With console printing set, both copies of
    [GetLogger] return a tee of two cores with the same level, the file
    core and the standard-output core, and a record at or above the
    level is encoded and written once to the rotating file and once to
    standard output.  In the copy that selects the encoder by the format
    name both cores are given that one encoder, so the two outputs have
    the same format and the tee is not separately encoded.  In the copy
    without a format name the file core has the encoder of [getEncoder]
    and the console core the encoder of [getConsoleEncoder], each output
    in its own format. *)
Theorem console_tee_delivers_to_both `{GoRuntime} (now : Time) (caller : EntryCaller)
    (lvl : zapcore.Level) (msg : string) (fields : list zapcore.Field) :
  let ent := entry_of now caller lvl msg in
  (forall (h : gmap Ptr.loc PzlogConfig) (l : Ptr.loc) (config : PzlogConfig),
     h !! l = Some config ->
     PrintConsole config = true ->
     let cfg := setDefaultValue config in
     let enc := getEncoder (Encoder cfg) in
     exists lg : zap.Logger,
       GetLogger (Some l) h = Ptr.Returns lg (<[l := cfg]> h) /\
       zap.core lg =
         zapcore.multiCore
           [ zapcore.ioCore (getLevelEnabler cfg) enc (getWriteSyncer cfg);
             zapcore.ioCore (getLevelEnabler cfg) enc
               (zapcore.Lock (zapcore.File zapcore.os_Stdout)) ] /\
       ~ separately_encoded (zap.core lg) /\
       (getLevelEnabler cfg <= lvl ->
        zap.Logger_Log lg now caller lvl msg fields =
          [ zapcore.EncodeEntry enc ent fields; zapcore.Write_ (file_of cfg) enc ent fields;
            zapcore.EncodeEntry enc ent fields;
            zapcore.Write_ zapcore.os_Stdout enc ent fields ])) /\
  (forall (h : gmap Ptr.loc Flat.PzlogConfig) (l : Ptr.loc) (config : Flat.PzlogConfig),
     h !! l = Some config ->
     Flat.PrintConsole config = true ->
     let cfg := Flat.setDefaultValue config in
     exists lg : zap.Logger,
       Flat.GetLogger (Some l) h = Ptr.Returns lg (<[l := cfg]> h) /\
       zap.core lg =
         zapcore.multiCore
           [ zapcore.ioCore (Flat.getLevelEnabler cfg) Flat.getEncoder (Flat.GetWriteSyncer cfg);
             zapcore.ioCore (Flat.getLevelEnabler cfg) Flat.getConsoleEncoder
               (zapcore.Lock (zapcore.File zapcore.os_Stdout)) ] /\
       separately_encoded (zap.core lg) /\
       (Flat.getLevelEnabler cfg <= lvl ->
        zap.Logger_Log lg now caller lvl msg fields =
          [ zapcore.EncodeEntry Flat.getEncoder ent fields;
            zapcore.Write_ (zapcore.WriteSyncer_writer (Flat.GetWriteSyncer cfg))
              Flat.getEncoder ent fields;
            zapcore.EncodeEntry Flat.getConsoleEncoder ent fields;
            zapcore.Write_ zapcore.os_Stdout Flat.getConsoleEncoder ent fields ])).
Proof.
  cbv zeta. split.
  - intros h l config Hl Hpc.
    assert (PrintConsole (setDefaultValue config) = true) as Hpc'.
    { rewrite setDefaultValue_eq. exact Hpc. }
    exists (logger_of (setDefaultValue config)). split; [apply GetLogger_at, Hl|].
    assert (zap.core (logger_of (setDefaultValue config)) =
            zapcore.multiCore
              [ zapcore.ioCore (getLevelEnabler (setDefaultValue config))
                  (getEncoder (Encoder (setDefaultValue config)))
                  (getWriteSyncer (setDefaultValue config));
                zapcore.ioCore (getLevelEnabler (setDefaultValue config))
                  (getEncoder (Encoder (setDefaultValue config)))
                  (zapcore.Lock (zapcore.File zapcore.os_Stdout)) ]) as Hcore.
    { unfold logger_of, core_of. cbn [zap.core]. rewrite Hpc'. reflexivity. }
    split; [exact Hcore|]. split.
    + intros (enab1 & enc1 & out1 & enab2 & enc2 & out2 & Htee & Hne).
      rewrite Hcore in Htee. apply Hne. injection Htee as _ <- _ _ <- _. reflexivity.
    + intros Hlvl. pose proof (Logger_Log_logger_of (setDefaultValue config)
        now caller lvl msg fields) as HL. cbv zeta in HL.
      rewrite HL, Hpc'. apply Z.leb_le in Hlvl. rewrite Hlvl. reflexivity.
  - intros h l config Hl Hpc.
    assert (Flat.PrintConsole (Flat.setDefaultValue config) = true) as Hpc'.
    { rewrite Flat_setDefaultValue_eq. exact Hpc. }
    eexists. split; [apply Flat_GetLogger_at, Hl|].
    cbv zeta. cbn [zap.core]. rewrite Hpc'. split; [reflexivity|]. split.
    + unfold separately_encoded. eexists _, _, _, _, _, _. split; [reflexivity|].
      intros Heq.
      apply (f_equal (fun e => zapcore.CallerKey (zapcore.Encoder_config e))) in Heq.
      discriminate Heq.
    + intros Hlvl. rewrite Logger_Log_tee. apply Z.leb_le in Hlvl. rewrite Hlvl. reflexivity.
Qed.

Lemma console_tee_delivers_to_both_witness :
  (exists lg : zap.Logger,
     @GetLogger example_runtime (Some 1%positive) {[ 1%positive := config_console ]} =
       Ptr.Returns lg {[ 1%positive := @setDefaultValue example_runtime config_console ]} /\
     writers (zap.Logger_Log lg 0 caller_main zapcore.ErrorLevel "boom" []) =
       [ file_of (@setDefaultValue example_runtime config_console); zapcore.os_Stdout ] /\
     encoders (zap.Logger_Log lg 0 caller_main zapcore.ErrorLevel "boom" []) =
       [ @getEncoder example_runtime "json"; @getEncoder example_runtime "json" ]) /\
  (exists lg : zap.Logger,
     @Flat.GetLogger example_runtime (Some 1%positive) {[ 1%positive := flat_config_console ]} =
       Ptr.Returns lg
         {[ 1%positive := @Flat.setDefaultValue example_runtime flat_config_console ]} /\
     writers (zap.Logger_Log lg 0 caller_main zapcore.ErrorLevel "boom" []) =
       [ zapcore.WriteSyncer_writer
           (Flat.GetWriteSyncer (@Flat.setDefaultValue example_runtime flat_config_console));
         zapcore.os_Stdout ] /\
     encoders (zap.Logger_Log lg 0 caller_main zapcore.ErrorLevel "boom" []) =
       [ @Flat.getEncoder example_runtime; @Flat.getConsoleEncoder example_runtime ]).
Proof.
  destruct (@console_tee_delivers_to_both example_runtime 0 caller_main zapcore.ErrorLevel
              "boom" []) as [Hfirst Hsecond].
  split.
  - destruct (Hfirst {[ 1%positive := config_console ]} 1%positive config_console)
      as (lg & Hrun & _ & _ & Hlog); [apply lookup_singleton_eq|reflexivity|].
    exists lg. split; [etransitivity; [exact Hrun|]; reflexivity|].
    rewrite Hlog; [split; reflexivity|]. vm_compute. discriminate.
  - destruct (Hsecond {[ 1%positive := flat_config_console ]} 1%positive flat_config_console)
      as (lg & Hrun & _ & _ & Hlog); [apply lookup_singleton_eq|reflexivity|].
    exists lg. split; [etransitivity; [exact Hrun|]; reflexivity|].
    rewrite Hlog; [split; reflexivity|]. vm_compute. discriminate.
Defined.

(** The tee of [GetLogger] is not separately encoded: at a
    configuration with console printing both cores hold the encoder
    of [getEncoder], which is not the console encoder that
    [getConsoleEncoder] would give. *)
Lemma console_core_shares_file_encoder :
  exists (lg : zap.Logger) (h' : gmap Ptr.loc PzlogConfig),
    @GetLogger example_runtime (Some 1%positive) {[ 1%positive := config_console ]} =
      Ptr.Returns lg h' /\
    zap.core lg =
      zapcore.multiCore
        [ zapcore.ioCore zapcore.WarnLevel (@getEncoder example_runtime "json")
            (@getWriteSyncer (@setDefaultValue example_runtime config_console));
          zapcore.ioCore zapcore.WarnLevel (@getEncoder example_runtime "json")
            (zapcore.Lock (zapcore.File zapcore.os_Stdout)) ] /\
    @getEncoder example_runtime "json" <> @getConsoleEncoder example_runtime "json" /\
    ~ separately_encoded (zap.core lg).
Proof.
  eexists _, _. split; [apply GetLogger_at, lookup_singleton_eq|].
  split; [reflexivity|]. split.
  - intros Heq. apply (f_equal (fun e => zapcore.CallerKey (zapcore.Encoder_config e))) in Heq.
    discriminate Heq.
  - intros (enab1 & enc1 & out1 & enab2 & enc2 & out2 & Hcore & Hne).
    apply Hne. unfold logger_of, core_of in Hcore. cbn in Hcore.
    inversion Hcore. reflexivity.
Qed.

(** In the second copy of the file the console core does have an
    encoder of its own. *)
Lemma Flat_console_core_separately_encoded `{GoRuntime} (h : gmap Ptr.loc Flat.PzlogConfig)
    (l : Ptr.loc) (config : Flat.PzlogConfig) :
  h !! l = Some config ->
  Flat.PrintConsole config = true ->
  exists lg : zap.Logger,
    Flat.GetLogger (Some l) h = Ptr.Returns lg (<[l := Flat.setDefaultValue config]> h) /\
    separately_encoded (zap.core lg).
Proof.
  intros Hl Hpc.
  assert (Flat.PrintConsole (Flat.setDefaultValue config) = true) as Hpc'.
  { rewrite Flat_setDefaultValue_eq. exact Hpc. }
  unfold Flat.GetLogger, Ptr.call_on, Ptr.bind, Ptr.ret, Ptr.load, Ptr.store.
  rewrite Hl. cbv beta iota. rewrite Hl. cbv beta iota.
  rewrite lookup_insert_eq. cbv beta iota. rewrite Hpc'.
  eexists. split; [reflexivity|].
  unfold separately_encoded, zap.New, zapcore.NewTee, zapcore.NewCore. cbn.
  eexists _, _, _, _, _, _. split; [reflexivity|].
  intros Heq. apply (f_equal (fun e => zapcore.CallerKey (zapcore.Encoder_config e))) in Heq.
  discriminate Heq.
Qed.

(** C3.  A record whose level is below the level of the normalised
    configuration reaches no core of the logger that [GetLogger]
    returns: the logging call runs no encoder and writes to no sink,
    with or without console printing. *)
Theorem below_level_nothing_encoded_or_written `{GoRuntime} (h : gmap Ptr.loc PzlogConfig)
    (l : Ptr.loc) (config : PzlogConfig) (now : Time) (caller : EntryCaller)
    (lvl : zapcore.Level) (msg : string) (fields : list zapcore.Field) :
  h !! l = Some config ->
  lvl < getLevelEnabler (setDefaultValue config) ->
  exists lg : zap.Logger,
    GetLogger (Some l) h = Ptr.Returns lg (<[l := setDefaultValue config]> h) /\
    zap.Logger_Log lg now caller lvl msg fields = [].
Proof.
  intros Hl Hlvl. exists (logger_of (setDefaultValue config)).
  split; [apply GetLogger_at, Hl|].
  pose proof (Logger_Log_logger_of (setDefaultValue config) now caller lvl msg fields) as HL.
  cbv zeta in HL. rewrite HL.
  apply Z.leb_gt in Hlvl. rewrite Hlvl. reflexivity.
Qed.

Lemma below_level_nothing_encoded_or_written_witness :
  exists lg : zap.Logger,
    @GetLogger example_runtime (Some 1%positive) {[ 1%positive := config_console ]} =
      Ptr.Returns lg {[ 1%positive := @setDefaultValue example_runtime config_console ]} /\
    zap.Logger_Log lg 0 {| Defined := true; PC := 0; File := "main.go"; Line := 7;
                           Function := "main.main" |} zapcore.InfoLevel "quiet" [] = [].
Proof.
  destruct (@below_level_nothing_encoded_or_written example_runtime
              {[ 1%positive := config_console ]} 1%positive config_console 0
              {| Defined := true; PC := 0; File := "main.go"; Line := 7;
                 Function := "main.main" |} zapcore.InfoLevel "quiet" [])
    as (lg & Hrun & Hlog).
  - apply lookup_singleton_eq.
  - reflexivity.
  - exists lg. split; [|exact Hlog].
    etransitivity; [exact Hrun|]. reflexivity.
Defined.

(** ** Construction never fails, and writes through the pointer *)

(** C9.  [GetLogger] returns a logger for the nil pointer and for every
    pointer to a configuration; it does not panic.  For nil it works on
    a fresh struct holding the defaults: the logger it returns has the
    JSON encoder, the level info and the file ./logs/pzlog.log with the
    limits 100, 10 and 30, and a record at info is encoded and written
    to that file. *)
Theorem GetLogger_never_fails `{GoRuntime} (h : gmap Ptr.loc PzlogConfig) (config : Ptr.pointer) :
  (forall l, config = Some l -> is_Some (h !! l)) ->
  (exists (lg : zap.Logger) (h' : gmap Ptr.loc PzlogConfig),
     GetLogger config h = Ptr.Returns lg h') /\
  setDefaultValue NewDefaultConfig =
    config_of "./logs/pzlog.log" 100 10 30 logTmFmt "info" false "json" /\
  GetLogger None h =
    Ptr.Returns (logger_of (setDefaultValue NewDefaultConfig))
      (<[fresh (dom h) := setDefaultValue NewDefaultConfig]> h) /\
  zap.core (logger_of (setDefaultValue NewDefaultConfig)) =
    zapcore.ioCore zapcore.InfoLevel (getEncoder "json")
      (getWriteSyncer (setDefaultValue NewDefaultConfig)) /\
  (forall (now : Time) (caller : EntryCaller) (msg : string) (fields : list zapcore.Field),
     zap.Logger_Log (logger_of (setDefaultValue NewDefaultConfig)) now caller
       zapcore.InfoLevel msg fields =
     [ zapcore.EncodeEntry (getEncoder "json") (entry_of now caller zapcore.InfoLevel msg) fields;
       zapcore.Write_
         (zapcore.lumberjack_Logger
            {| lumberjack.Filename := "./logs/pzlog.log"; lumberjack.MaxSize := 100;
               lumberjack.MaxAge := 30; lumberjack.MaxBackups := 10;
               lumberjack.LocalTime := false; lumberjack.Compress := false |})
         (getEncoder "json") (entry_of now caller zapcore.InfoLevel msg) fields ]).
Proof.
  intros Hvalid.
  assert (setDefaultValue NewDefaultConfig =
          config_of "./logs/pzlog.log" 100 10 30 logTmFmt "info" false "json") as Hdef.
  { rewrite setDefaultValue_eq. reflexivity. }
  split; [|split; [exact Hdef|split; [apply GetLogger_nil|split]]].
  - destruct config as [l|].
    + destruct (Hvalid l eq_refl) as [cfg Hl].
      eexists _, _. apply GetLogger_at, Hl.
    + eexists _, _. apply GetLogger_nil.
  - rewrite Hdef. reflexivity.
  - intros now caller msg fields.
    pose proof (Logger_Log_logger_of (setDefaultValue NewDefaultConfig)
                  now caller zapcore.InfoLevel msg fields) as HL.
    cbv zeta in HL. rewrite HL, Hdef. reflexivity.
Qed.

Lemma GetLogger_never_fails_witness :
  (exists (lg : zap.Logger) (h' : gmap Ptr.loc PzlogConfig),
     @GetLogger example_runtime None ∅ = Ptr.Returns lg h') /\
  (exists (lg : zap.Logger) (h' : gmap Ptr.loc PzlogConfig),
     @GetLogger example_runtime (Some 1%positive) {[ 1%positive := config_verbose ]} =
       Ptr.Returns lg h').
Proof.
  split.
  - apply (@GetLogger_never_fails example_runtime ∅ None). intros l Hl. discriminate Hl.
  - apply (@GetLogger_never_fails example_runtime {[ 1%positive := config_verbose ]}
             (Some 1%positive)).
    intros l Hl. injection Hl as <-. exists config_verbose. apply lookup_singleton_eq.
Defined.

(** C10.  On a pointer to a configuration, [GetLogger] overwrites the
    struct behind the pointer with its normal form and leaves every other
    struct alone.  In the struct it leaves behind, an empty file name,
    time format or format name has become ./logs/pzlog.log, the layout
    [logTmFmt] or json, a negative size, backup count or age has become
    100, 10 or 30, and an empty or unrecognised level name has become
    info; a file name, time format or format name that was not empty, a
    size, backup count or age that was not negative, a level name that
    was recognised, and the console switch are what they were. *)
Theorem GetLogger_normalises_in_place `{GoRuntime} (h : gmap Ptr.loc PzlogConfig) (l : Ptr.loc)
    (config : PzlogConfig) :
  h !! l = Some config ->
  exists (lg : zap.Logger) (h' : gmap Ptr.loc PzlogConfig) (cfg : PzlogConfig),
    GetLogger (Some l) h = Ptr.Returns lg h' /\
    h' !! l = Some cfg /\
    cfg = setDefaultValue config /\
    (forall l', l' <> l -> h' !! l' = h !! l') /\
    (Filename config = "" -> Filename cfg = "./logs/pzlog.log") /\
    (TimeFormat config = "" -> TimeFormat cfg = logTmFmt) /\
    (MaxSize config < 0 -> MaxSize cfg = 100) /\
    (MaxBackups config < 0 -> MaxBackups cfg = 10) /\
    (MaxAge config < 0 -> MaxAge cfg = 30) /\
    (Encoder config = "" -> Encoder cfg = "json") /\
    (LogLevel config = "" \/ m !! strings.ToLower (LogLevel config) = None ->
       LogLevel cfg = "info") /\
    (Filename config <> "" -> Filename cfg = Filename config) /\
    (TimeFormat config <> "" -> TimeFormat cfg = TimeFormat config) /\
    (0 <= MaxSize config -> MaxSize cfg = MaxSize config) /\
    (0 <= MaxBackups config -> MaxBackups cfg = MaxBackups config) /\
    (0 <= MaxAge config -> MaxAge cfg = MaxAge config) /\
    (Encoder config <> "" -> Encoder cfg = Encoder config) /\
    (is_Some (m !! strings.ToLower (LogLevel config)) -> LogLevel cfg = LogLevel config) /\
    PrintConsole cfg = PrintConsole config /\
    lumberjack.LocalTime (Logger cfg) = lumberjack.LocalTime (Logger config) /\
    lumberjack.Compress (Logger cfg) = lumberjack.Compress (Logger config).
Proof.
  intros Hl. eexists _, _, (setDefaultValue config). split; [apply GetLogger_at, Hl|].
  split; [apply lookup_insert_eq|]. split; [reflexivity|].
  split; [intros l' Hne; apply lookup_insert_ne; congruence|].
  assert (is_Some (m !! strings.ToLower (LogLevel config)) ->
          (if bool_decide (LogLevel config = "") || negb (recognised (LogLevel config))
           then "info" else LogLevel config) = LogLevel config) as Hkept.
  { intros [lv Hlv]. pose proof (setDefaultValue_level config) as Hlevel.
    rewrite Hlv, setDefaultValue_LogLevel in Hlevel. apply Hlevel. }
  assert (LogLevel config = "" \/ m !! strings.ToLower (LogLevel config) = None ->
          (if bool_decide (LogLevel config = "") || negb (recognised (LogLevel config))
           then "info" else LogLevel config) = "info") as Hinfo.
  { intros Hno. pose proof (setDefaultValue_level config) as Hlevel.
    assert (m !! strings.ToLower (LogLevel config) = None) as E.
    { destruct Hno as [-> | Hno]; [reflexivity|exact Hno]. }
    rewrite E, setDefaultValue_LogLevel in Hlevel. apply Hlevel. }
  rewrite setDefaultValue_eq. fields.
  repeat match goal with |- _ /\ _ => split end; try reflexivity;
    try exact Hkept; try exact Hinfo; clear Hkept Hinfo.
  - intros ->. reflexivity.
  - intros ->. reflexivity.
  - intros Hlt. apply Z.ltb_lt in Hlt. rewrite Hlt. reflexivity.
  - intros Hlt. apply Z.ltb_lt in Hlt. rewrite Hlt. reflexivity.
  - intros Hlt. apply Z.ltb_lt in Hlt. rewrite Hlt. reflexivity.
  - intros ->. reflexivity.
  - intros Hne. destruct (decide (_ = "")) as [E|E]; [destruct (Hne E)|reflexivity].
  - intros Hne. destruct (decide (_ = "")) as [E|E]; [destruct (Hne E)|reflexivity].
  - intros Hge. apply Z.ltb_ge in Hge. rewrite Hge. reflexivity.
  - intros Hge. apply Z.ltb_ge in Hge. rewrite Hge. reflexivity.
  - intros Hge. apply Z.ltb_ge in Hge. rewrite Hge. reflexivity.
  - intros Hne. destruct (decide (_ = "")) as [E|E]; [destruct (Hne E)|reflexivity].
Qed.

Lemma GetLogger_normalises_in_place_witness :
  exists (lg : zap.Logger) (h' : gmap Ptr.loc PzlogConfig) (cfg : PzlogConfig),
    @GetLogger example_runtime (Some 1%positive)
      {[ 1%positive := config_negative; 2%positive := config_zero ]} = Ptr.Returns lg h' /\
    h' !! 1%positive = Some cfg /\
    cfg <> config_negative /\
    (TimeFormat cfg = logTmFmt /\ MaxSize cfg = 100 /\ MaxBackups cfg = 10 /\
     MaxAge cfg = 30 /\ Encoder cfg = "json" /\ LogLevel cfg = "info") /\
    (Filename cfg = "app.log" /\ PrintConsole cfg = false) /\
    h' !! 2%positive = Some config_zero.
Proof.
  destruct (@GetLogger_normalises_in_place example_runtime
              {[ 1%positive := config_negative; 2%positive := config_zero ]}
              1%positive config_negative)
    as (lg & h' & cfg & Hrun & Hat & _ & Hframe & _ & HT & HS & HB & HA & HE & HL
        & HF & _ & _ & _ & _ & _ & _ & HP & _); [reflexivity|].
  exists lg, h', cfg. split; [exact Hrun|]. split; [exact Hat|].
  assert (MaxSize cfg = 100) as Hsize by (apply HS; reflexivity).
  split; [intros ->; discriminate Hsize|].
  split; [|split].
  - refine (conj (HT _) (conj Hsize (conj (HB _) (conj (HA _) (conj (HE _) (HL _))))));
      try reflexivity. left. reflexivity.
  - split; [apply HF; discriminate|exact HP].
  - etransitivity; [apply Hframe; discriminate|]. reflexivity.
Defined.

(** ** The request middleware *)

(** C4.  The handler of [GinLogger] reads the path and the raw query of
    the request before it runs the rest of the chain, runs the chain to
    its end, and then makes one call of [Info] on the global logger: the
    message is the path read at the start, and the fields are status,
    method, path, query, ip, user-agent, errors and cost, the first, the
    second and the last four read after the chain has run.  Nothing else
    changes, and whatever the chain logged comes before that record. *)
Theorem GinLogger_logs_one_record `{gin.GinRuntime} (Next : Handling -> Handling)
    (s : Handling) :
  let path := url.Path (http.URL (gin.Request (c s))) in
  let query := url.RawQuery (http.URL (gin.Request (c s))) in
  let s' := Next s in
  logged (GinLogger Next s) =
    logged s' ++
    [ {| zap.Call_Level := zap.InfoLevel;
         zap.Call_Message := path;
         zap.Call_Fields :=
           [ zap.Int "status" (gin.Writer_Status (c s'));
             zap.String "method" (http.Method (gin.Request (c s')));
             zap.String "path" path;
             zap.String "query" query;
             zap.String "ip" (gin.ClientIP (c s'));
             zap.String "user-agent" (http.UserAgent (gin.Request (c s')));
             zap.String "errors"
               (gin.errorMsgs_String (gin.ByType (gin.Errors (c s')) gin.ErrorTypePrivate));
             zap.Duration "cost" (clock s' - clock s) ] |} ] /\
  length (logged (GinLogger Next s)) = S (length (logged s')) /\
  c (GinLogger Next s) = c s' /\
  clock (GinLogger Next s) = clock s'.
Proof.
  cbv zeta. unfold GinLogger, L_Info. cbn [logged c clock].
  split; [reflexivity|]. split; [|split; reflexivity].
  rewrite length_app. cbn [length]. lia.
Qed.

(** A request for /items?id=5 whose chain rewrites the path, answers
    404 after 12ms and attaches one private and one public error. *)
Example GinLogger_items_404 :
  logged (@GinLogger example_gin_runtime request_chain request_items) =
  [ {| zap.Call_Level := 0;
       zap.Call_Message := "/items";
       zap.Call_Fields :=
         [ zap.Int "status" 404;
           zap.String "method" "GET";
           zap.String "path" "/items";
           zap.String "query" "id=5";
           zap.String "ip" "10.0.0.1:4242";
           zap.String "user-agent" "curl/8";
           zap.String "errors" "not found";
           zap.Duration "cost" 12000000 ] |} ].
Proof. vm_compute. reflexivity. Qed.

(** * Further properties of the code *)

(** ** The normal form of a configuration *)

Lemma setDefaultValue_gives_normal `{GoRuntime} (config : PzlogConfig) :
  normal (setDefaultValue config).
Proof.
  unfold normal.
  pose proof (setDefaultValue_level config) as Hlevel.
  assert (LogLevel (setDefaultValue config) <> "" /\
          is_Some (m !! strings.ToLower (LogLevel (setDefaultValue config)))) as Hll.
  { destruct (m !! strings.ToLower (LogLevel config)) as [lv|] eqn:E.
    - destruct Hlevel as [-> _]. destruct (recognised_lookup _ _ E) as [_ Hne].
      split; [exact Hne|]. rewrite E. eauto.
    - destruct Hlevel as [-> _]. split; [discriminate|]. exists zapcore.InfoLevel. reflexivity. }
  clear Hlevel. revert Hll. rewrite setDefaultValue_eq. fields. intros [Hll1 Hll2].
  repeat match goal with |- _ /\ _ => split end; try assumption.
  - destruct (decide (_ = "")) as [E|E]; [discriminate|exact E].
  - destruct (decide (_ = "")) as [E|E]; [discriminate|exact E].
  - destruct (_ <? 0) eqn:E; [lia|apply Z.ltb_ge, E].
  - destruct (_ <? 0) eqn:E; [lia|apply Z.ltb_ge, E].
  - destruct (_ <? 0) eqn:E; [lia|apply Z.ltb_ge, E].
  - destruct (decide (_ = "")) as [E|E]; [discriminate|exact E].
Qed.

Lemma setDefaultValue_of_normal `{GoRuntime} (config : PzlogConfig) :
  normal config -> setDefaultValue config = config.
Proof.
  intros (HF & HT & HS & HB & HA & HE & HL & [lv Hlv]).
  rewrite setDefaultValue_eq.
  destruct (recognised_lookup _ _ Hlv) as [Hrec _].
  rewrite Hrec, (bool_decide_eq_false_2 _ HL).
  rewrite !decide_False by assumption.
  apply Z.ltb_ge in HS, HB, HA. rewrite HS, HB, HA.
  destruct config as [[fn ms ma mb lt cp] tf ll pc en]. reflexivity.
Qed.

(** X1.  Whatever the configuration, after [setDefaultValue] no string
    field that the function guards is empty, no limit is negative, and
    the level name is one that the map [m] knows after lowering; and the
    configurations that [setDefaultValue] leaves as they are are exactly
    the ones of that form. *)
Theorem setDefaultValue_normal_form `{GoRuntime} (config : PzlogConfig) :
  normal (setDefaultValue config) /\
  (setDefaultValue config = config <-> normal config).
Proof.
  split; [apply setDefaultValue_gives_normal|]. split.
  - intros Heq. rewrite <- Heq. apply setDefaultValue_gives_normal.
  - apply setDefaultValue_of_normal.
Qed.

Lemma getLevelEnabler_setDefaultValue `{GoRuntime} (config : PzlogConfig) :
  getLevelEnabler (setDefaultValue config) = getLevelEnabler config.
Proof.
  pose proof (setDefaultValue_level config) as Hlevel.
  rewrite (getLevelEnabler_lookup config). unfold level_of_name.
  destruct (m !! strings.ToLower (LogLevel config)); apply Hlevel.
Qed.

Lemma getLevelEnabler_range `{GoRuntime} (config : PzlogConfig) :
  zapcore.DebugLevel <= getLevelEnabler config <= zapcore.FatalLevel.
Proof.
  unfold getLevelEnabler. cbv zeta.
  repeat case_decide; unfold zapcore.DebugLevel, zapcore.InfoLevel, zapcore.WarnLevel,
    zapcore.ErrorLevel, zapcore.DPanicLevel, zapcore.PanicLevel, zapcore.FatalLevel; lia.
Qed.

(** X2.  [getLevelEnabler] gives a configuration the same level before
    and after [setDefaultValue]: a name that normalisation replaces by
    info is a name that the switch sends to info already.  The level is
    always between debug and fatal. *)
Theorem getLevelEnabler_before_and_after `{GoRuntime} (config : PzlogConfig) :
  getLevelEnabler (setDefaultValue config) = getLevelEnabler config /\
  zapcore.DebugLevel <= getLevelEnabler config <= zapcore.FatalLevel.
Proof.
  split; [apply getLevelEnabler_setDefaultValue|apply getLevelEnabler_range].
Qed.

(** ** What a logging call writes *)

Lemma writers_logger_of `{GoRuntime} (cfg : PzlogConfig) (now : Time) (caller : EntryCaller)
    (lvl : zapcore.Level) (msg : string) (fields : list zapcore.Field) :
  writers (zap.Logger_Log (logger_of cfg) now caller lvl msg fields) =
  if getLevelEnabler cfg <=? lvl then
    if PrintConsole cfg then [file_of cfg; zapcore.os_Stdout] else [file_of cfg]
  else [].
Proof.
  pose proof (Logger_Log_logger_of cfg now caller lvl msg fields) as HL.
  cbv zeta in HL. rewrite HL.
  destruct (getLevelEnabler cfg <=? lvl), (PrintConsole cfg); reflexivity.
Qed.

Lemma encoders_logger_of `{GoRuntime} (cfg : PzlogConfig) (now : Time) (caller : EntryCaller)
    (lvl : zapcore.Level) (msg : string) (fields : list zapcore.Field) :
  encoders (zap.Logger_Log (logger_of cfg) now caller lvl msg fields) =
  if getLevelEnabler cfg <=? lvl then
    if PrintConsole cfg then [getEncoder (Encoder cfg); getEncoder (Encoder cfg)]
    else [getEncoder (Encoder cfg)]
  else [].
Proof.
  pose proof (Logger_Log_logger_of cfg now caller lvl msg fields) as HL.
  cbv zeta in HL. rewrite HL.
  destruct (getLevelEnabler cfg <=? lvl), (PrintConsole cfg); reflexivity.
Qed.

(** X3.  For the logger that [GetLogger] builds from a configuration, a
    record is written to the rotating file exactly when its level is at
    or above the level that [getLevelEnabler] gives the configuration as
    the caller passed it, and the call does nothing at all exactly when
    the level is below it.  A record at fatal is therefore written
    whatever the configuration says, and every call runs the encoder as
    often as it writes, at most twice. *)
Theorem written_iff_at_or_above `{GoRuntime} (h : gmap Ptr.loc PzlogConfig) (l : Ptr.loc)
    (config : PzlogConfig) (now : Time) (caller : EntryCaller) (lvl : zapcore.Level)
    (msg : string) (fields : list zapcore.Field) :
  h !! l = Some config ->
  exists lg : zap.Logger,
    GetLogger (Some l) h = Ptr.Returns lg (<[l := setDefaultValue config]> h) /\
    ((file_of (setDefaultValue config) ∈ writers (zap.Logger_Log lg now caller lvl msg fields))
       <-> getLevelEnabler config <= lvl) /\
    (zap.Logger_Log lg now caller lvl msg fields = [] <-> lvl < getLevelEnabler config) /\
    (file_of (setDefaultValue config) ∈
      writers (zap.Logger_Log lg now caller zapcore.FatalLevel msg fields)) /\
    length (encoders (zap.Logger_Log lg now caller lvl msg fields)) =
      length (writers (zap.Logger_Log lg now caller lvl msg fields)) /\
    (length (writers (zap.Logger_Log lg now caller lvl msg fields)) <= 2)%nat.
Proof.
  intros Hl. exists (logger_of (setDefaultValue config)).
  split; [apply GetLogger_at, Hl|].
  rewrite !writers_logger_of, encoders_logger_of.
  pose proof (Logger_Log_logger_of (setDefaultValue config) now caller lvl msg fields) as HL.
  cbv zeta in HL. rewrite HL. clear HL.
  rewrite getLevelEnabler_setDefaultValue.
  pose proof (getLevelEnabler_range config) as [_ Hmax].
  apply Z.leb_le in Hmax. rewrite Hmax.
  split; [|split; [|split; [|split]]].
  - destruct (getLevelEnabler config <=? lvl) eqn:E.
    + apply Z.leb_le in E. split; [intros _; exact E|].
      intros _. destruct (PrintConsole (setDefaultValue config)); apply elem_of_cons; left; reflexivity.
    + apply Z.leb_gt in E. split; [|lia]. intros Hin. apply elem_of_nil in Hin. destruct Hin.
  - destruct (getLevelEnabler config <=? lvl) eqn:E.
    + apply Z.leb_le in E. split; [|lia]. destruct (PrintConsole (setDefaultValue config)); discriminate.
    + apply Z.leb_gt in E. split; [intros _; exact E|reflexivity].
  - destruct (PrintConsole (setDefaultValue config)); apply elem_of_cons; left; reflexivity.
  - destruct (getLevelEnabler config <=? lvl), (PrintConsole (setDefaultValue config)); reflexivity.
  - destruct (getLevelEnabler config <=? lvl), (PrintConsole (setDefaultValue config)); cbn [length]; lia.
Qed.

Lemma written_iff_at_or_above_witness :
  exists lg : zap.Logger,
    @GetLogger example_runtime (Some 1%positive) {[ 1%positive := config_compress ]} =
      Ptr.Returns lg {[ 1%positive := @setDefaultValue example_runtime config_compress ]} /\
    zap.Logger_Log lg 0 caller_main zapcore.WarnLevel "low" [] = [] /\
    (file_of (@setDefaultValue example_runtime config_compress) ∈
      writers (zap.Logger_Log lg 0 caller_main zapcore.ErrorLevel "high" [])).
Proof.
  destruct (@written_iff_at_or_above example_runtime {[ 1%positive := config_compress ]}
              1%positive config_compress 0 caller_main zapcore.WarnLevel "low" [])
    as (lg & Hrun & _ & Hnone & _); [apply lookup_singleton_eq|].
  destruct (@written_iff_at_or_above example_runtime {[ 1%positive := config_compress ]}
              1%positive config_compress 0 caller_main zapcore.ErrorLevel "high" [])
    as (lg' & Hrun' & Hfile & _); [apply lookup_singleton_eq|].
  assert (lg' = lg) as -> by congruence.
  exists lg. split; [|split].
  - etransitivity; [exact Hrun|]. reflexivity.
  - apply Hnone. reflexivity.
  - apply Hfile. vm_compute. discriminate.
Defined.

(** X4.  Without console printing the logger has the file core alone:
    no logging call writes to standard output, and a call writes to the
    rotating file once or not at all. *)
Theorem no_console_no_stdout `{GoRuntime} (h : gmap Ptr.loc PzlogConfig) (l : Ptr.loc)
    (config : PzlogConfig) (now : Time) (caller : EntryCaller) (lvl : zapcore.Level)
    (msg : string) (fields : list zapcore.Field) :
  h !! l = Some config ->
  PrintConsole config = false ->
  exists lg : zap.Logger,
    GetLogger (Some l) h = Ptr.Returns lg (<[l := setDefaultValue config]> h) /\
    (zapcore.os_Stdout ∉ writers (zap.Logger_Log lg now caller lvl msg fields)) /\
    writers (zap.Logger_Log lg now caller lvl msg fields) =
      if getLevelEnabler config <=? lvl then [file_of (setDefaultValue config)] else [].
Proof.
  intros Hl Hpc. exists (logger_of (setDefaultValue config)).
  split; [apply GetLogger_at, Hl|].
  assert (PrintConsole (setDefaultValue config) = false) as Hpc'.
  { rewrite setDefaultValue_eq. exact Hpc. }
  rewrite writers_logger_of, Hpc', getLevelEnabler_setDefaultValue.
  split; [|reflexivity].
  destruct (getLevelEnabler config <=? lvl).
  - intros Hin. apply list_elem_of_singleton in Hin. discriminate Hin.
  - intros Hin. apply elem_of_nil in Hin. destruct Hin.
Qed.

Lemma no_console_no_stdout_witness :
  exists lg : zap.Logger,
    @GetLogger example_runtime (Some 1%positive) {[ 1%positive := config_compress ]} =
      Ptr.Returns lg {[ 1%positive := @setDefaultValue example_runtime config_compress ]} /\
    zapcore.os_Stdout ∉ writers (zap.Logger_Log lg 0 caller_main zapcore.FatalLevel "bye" []).
Proof.
  destruct (@no_console_no_stdout example_runtime {[ 1%positive := config_compress ]}
              1%positive config_compress 0 caller_main zapcore.FatalLevel "bye" [])
    as (lg & Hrun & Hout & _); [apply lookup_singleton_eq|reflexivity|].
  exists lg. split; [|exact Hout].
  etransitivity; [exact Hrun|]. reflexivity.
Defined.

(** X5.  The rotating file that [getWriteSyncer] opens for a normalised
    configuration has a file name that is not empty and limits that are
    not negative, taken from the configuration; the [LocalTime] and
    [Compress] switches of the embedded logger are not passed on, so two
    configurations that differ only in them get the same file sink. *)
Theorem getWriteSyncer_passes_four_fields `{GoRuntime} (config : PzlogConfig) :
  let cfg := setDefaultValue config in
  exists lj : lumberjack.Logger,
    getWriteSyncer cfg = zapcore.AddSync (zapcore.lumberjack_Logger lj) /\
    lumberjack.Filename lj = Filename cfg /\ lumberjack.Filename lj <> "" /\
    lumberjack.MaxSize lj = MaxSize cfg /\ 0 <= lumberjack.MaxSize lj /\
    lumberjack.MaxBackups lj = MaxBackups cfg /\ 0 <= lumberjack.MaxBackups lj /\
    lumberjack.MaxAge lj = MaxAge cfg /\ 0 <= lumberjack.MaxAge lj /\
    lumberjack.LocalTime lj = false /\
    lumberjack.Compress lj = false /\
    (forall localtime compress : bool,
       getWriteSyncer
         (set_Logger (fun lg =>
            {| lumberjack.Filename := lumberjack.Filename lg;
               lumberjack.MaxSize := lumberjack.MaxSize lg;
               lumberjack.MaxAge := lumberjack.MaxAge lg;
               lumberjack.MaxBackups := lumberjack.MaxBackups lg;
               lumberjack.LocalTime := localtime;
               lumberjack.Compress := compress |}) cfg) = getWriteSyncer cfg).
Proof.
  cbv zeta.
  destruct (setDefaultValue_gives_normal config) as (HF & _ & HS & HB & HA & _).
  eexists. split; [reflexivity|]. cbn [lumberjack.Filename lumberjack.MaxSize
    lumberjack.MaxBackups lumberjack.MaxAge lumberjack.LocalTime lumberjack.Compress].
  repeat match goal with |- _ /\ _ => split end; try reflexivity; try assumption.
Qed.

(** ** The encoders *)

(** X6.  The two encoders of [getEncoder] carry one and the same
    encoder configuration (the keys ts, level, logger, caller_line, msg
    and stacktrace and the four callbacks of the package), so the format
    name changes the layout only; and two format names select the same
    encoder exactly when both are console or neither is. *)
Theorem getEncoder_variants_share_config `{GoRuntime} (types1 types2 : string) :
  zapcore.Encoder_config (getEncoder types1) = zapcore.Encoder_config (getEncoder types2) /\
  zapcore.Encoder_config (getEncoder types1) =
    {| zapcore.TimeKey := "ts"; zapcore.LevelKey := "level"; zapcore.NameKey := "logger";
       zapcore.CallerKey := "caller_line"; zapcore.FunctionKey := "";
       zapcore.MessageKey := "msg"; zapcore.StacktraceKey := "stacktrace";
       zapcore.LineEnding := zapcore.DefaultLineEnding;
       zapcore.EncodeLevel := cEncodeLevel; zapcore.EncodeTime := cEncodeTime;
       zapcore.EncodeDuration := zapcore.SecondsDurationEncoder;
       zapcore.EncodeCaller := cEncodeCaller |} /\
  (getEncoder types1 = getEncoder types2 <-> (types1 = "console" <-> types2 = "console")).
Proof.
  unfold getEncoder.
  destruct (decide (types1 = "console")) as [E1|E1], (decide (types2 = "console")) as [E2|E2];
    (split; [reflexivity|split; [reflexivity|]]).
  - split; [intros _; tauto|reflexivity].
  - split; [discriminate|]. intros [Hc _]. destruct (E2 (Hc E1)).
  - split; [discriminate|]. intros [_ Hc]. destruct (E1 (Hc E2)).
  - split; [intros _; tauto|reflexivity].
Qed.

Lemma core_encoders_core_of `{GoRuntime} (cfg : PzlogConfig) (enc : zapcore.Encoder) :
  enc ∈ core_encoders (core_of cfg) -> enc = getEncoder (Encoder cfg).
Proof.
  unfold core_of. destruct (PrintConsole cfg); cbn; intros Hin.
  - apply elem_of_cons in Hin as [->|Hin]; [reflexivity|].
    apply list_elem_of_singleton in Hin. exact Hin.
  - apply list_elem_of_singleton in Hin. exact Hin.
Qed.

Lemma getEncoder_not_getConsoleEncoder `{GoRuntime} (types types' : string) :
  getEncoder types <> getConsoleEncoder types'.
Proof.
  intros Heq.
  apply (f_equal (fun e => zapcore.CallerKey (zapcore.Encoder_config e))) in Heq.
  unfold getEncoder, getConsoleEncoder in Heq.
  destruct (decide (types = "console")), (decide (types' = "console")); discriminate Heq.
Qed.

(** X7.  No core of a logger that [GetLogger] returns holds an encoder
    of [getConsoleEncoder], for the nil pointer and for every pointer to
    a configuration: the function is never used. *)
Theorem GetLogger_never_uses_getConsoleEncoder `{GoRuntime} (h : gmap Ptr.loc PzlogConfig)
    (config : Ptr.pointer) :
  (forall l, config = Some l -> is_Some (h !! l)) ->
  exists (lg : zap.Logger) (h' : gmap Ptr.loc PzlogConfig),
    GetLogger config h = Ptr.Returns lg h' /\
    core_encoders (zap.core lg) <> [] /\
    forall (enc : zapcore.Encoder) (types : string),
      enc ∈ core_encoders (zap.core lg) -> enc <> getConsoleEncoder types.
Proof.
  intros Hvalid.
  assert (forall cfg : PzlogConfig,
            core_encoders (zap.core (logger_of cfg)) <> [] /\
            forall (enc : zapcore.Encoder) (types : string),
              enc ∈ core_encoders (zap.core (logger_of cfg)) ->
              enc <> getConsoleEncoder types) as Hcores.
  { intros cfg. split.
    - cbn [logger_of zap.core]. unfold core_of. destruct (PrintConsole cfg); discriminate.
    - intros enc types Hin. apply core_encoders_core_of in Hin. subst enc.
      apply getEncoder_not_getConsoleEncoder. }
  destruct config as [l|].
  - destruct (Hvalid l eq_refl) as [cfg Hl].
    eexists _, _. split; [apply GetLogger_at, Hl|]. apply Hcores.
  - eexists _, _. split; [apply GetLogger_nil|]. apply Hcores.
Qed.

Lemma GetLogger_never_uses_getConsoleEncoder_witness :
  exists (lg : zap.Logger) (h' : gmap Ptr.loc PzlogConfig),
    @GetLogger example_runtime (Some 1%positive) {[ 1%positive := config_console ]} =
      Ptr.Returns lg h' /\
    forall enc : zapcore.Encoder,
      enc ∈ core_encoders (zap.core lg) -> enc <> @getConsoleEncoder example_runtime "console".
Proof.
  destruct (@GetLogger_never_uses_getConsoleEncoder example_runtime
              {[ 1%positive := config_console ]} (Some 1%positive))
    as (lg & h' & Hrun & _ & Hnot).
  - intros l Hl. injection Hl as <-. exists config_console. apply lookup_singleton_eq.
  - exists lg, h'. split; [exact Hrun|]. intros enc Hin. apply Hnot, Hin.
Defined.

(** ** Level names *)

(** X8.  Two level names of ASCII bytes that differ only in the case of
    their letters are treated alike: both are recognised or neither is,
    and the configurations get the same level. *)
Theorem level_ignores_letter_case `{GoRuntime} (config1 config2 : PzlogConfig) :
  strings.isASCII (LogLevel config1) = true ->
  strings.isASCII (LogLevel config2) = true ->
  strings.lowerBytes (LogLevel config1) = strings.lowerBytes (LogLevel config2) ->
  recognised (LogLevel config1) = recognised (LogLevel config2) /\
  getLevelEnabler config1 = getLevelEnabler config2 /\
  getLevelEnabler (setDefaultValue config1) = getLevelEnabler (setDefaultValue config2).
Proof.
  intros H1 H2 Hlow.
  assert (strings.ToLower (LogLevel config1) = strings.ToLower (LogLevel config2)) as Heq.
  { rewrite !ToLower_ascii by assumption. exact Hlow. }
  split; [|split].
  - unfold recognised. rewrite Heq. reflexivity.
  - rewrite !getLevelEnabler_lookup, Heq. reflexivity.
  - rewrite !getLevelEnabler_setDefaultValue, !getLevelEnabler_lookup, Heq. reflexivity.
Qed.

Lemma level_ignores_letter_case_witness :
  @getLevelEnabler example_runtime config_zero =
  @getLevelEnabler example_runtime (set_LogLevel "WARN" config_zero).
Proof.
  apply (@level_ignores_letter_case example_runtime config_zero
           (set_LogLevel "WARN" config_zero)); reflexivity.
Defined.

Lemma getLevelEnabler_cases `{GoRuntime} (config : PzlogConfig) :
  In (getLevelEnabler config)
     [ zapcore.DebugLevel; zapcore.InfoLevel; zapcore.WarnLevel; zapcore.ErrorLevel;
       zapcore.DPanicLevel; zapcore.PanicLevel; zapcore.FatalLevel ].
Proof.
  unfold getLevelEnabler. cbv zeta. repeat case_decide; simpl; tauto.
Qed.

(** X9.  The text that [cEncodeLevel] prints for the level of a
    configuration is itself a level name that the configuration
    accepts: [setDefaultValue] keeps it, and [getLevelEnabler] reads
    the same level back from it. *)
Theorem cEncodeLevel_prints_a_level_name `{GoRuntime} (config : PzlogConfig) :
  exists name : string,
    cEncodeLevel (getLevelEnabler config) [] = [zapcore.PString name] /\
    LogLevel (setDefaultValue (set_LogLevel name config)) = name /\
    getLevelEnabler (set_LogLevel name config) = getLevelEnabler config.
Proof.
  pose proof (getLevelEnabler_cases config) as Hin.
  assert (forall (l : zapcore.Level) (name : string),
            cEncodeLevel l [] = [zapcore.PString name] ->
            recognised name = true -> name <> "" ->
            level_of_name (strings.ToLower name) = l ->
            l = getLevelEnabler config ->
            exists name : string,
              cEncodeLevel (getLevelEnabler config) [] = [zapcore.PString name] /\
              LogLevel (setDefaultValue (set_LogLevel name config)) = name /\
              getLevelEnabler (set_LogLevel name config) = getLevelEnabler config) as Hcase.
  { intros l name Hprint Hrec Hne Hback <-. exists name. split; [exact Hprint|]. split.
    - rewrite setDefaultValue_LogLevel. fields.
      rewrite Hrec, (bool_decide_eq_false_2 _ Hne). reflexivity.
    - rewrite getLevelEnabler_lookup. fields. exact Hback. }
  simpl in Hin.
  destruct Hin as [E|[E|[E|[E|[E|[E|[E|[]]]]]]]].
  - apply (Hcase zapcore.DebugLevel "DEBUG"); [reflexivity|reflexivity|discriminate|reflexivity|exact E].
  - apply (Hcase zapcore.InfoLevel "INFO"); [reflexivity|reflexivity|discriminate|reflexivity|exact E].
  - apply (Hcase zapcore.WarnLevel "WARN"); [reflexivity|reflexivity|discriminate|reflexivity|exact E].
  - apply (Hcase zapcore.ErrorLevel "ERROR"); [reflexivity|reflexivity|discriminate|reflexivity|exact E].
  - apply (Hcase zapcore.DPanicLevel "DPANIC"); [reflexivity|reflexivity|discriminate|reflexivity|exact E].
  - apply (Hcase zapcore.PanicLevel "PANIC"); [reflexivity|reflexivity|discriminate|reflexivity|exact E].
  - apply (Hcase zapcore.FatalLevel "FATAL"); [reflexivity|reflexivity|discriminate|reflexivity|exact E].
Qed.

(** ** Normalisation, field by field *)

(** X10.  [setDefaultValue] treats every field on its own: assigning a
    field and then normalising is normalising and then assigning the
    normalised value of that field, for each of the seven fields that
    the function guards. *)
Theorem setDefaultValue_field_by_field `{GoRuntime} (config : PzlogConfig) :
  (forall v : string,
     setDefaultValue (set_Filename v config) =
     set_Filename (if decide (v = "") then "./logs/pzlog.log" else v) (setDefaultValue config)) /\
  (forall v : string,
     setDefaultValue (set_TimeFormat v config) =
     set_TimeFormat (if decide (v = "") then logTmFmt else v) (setDefaultValue config)) /\
  (forall v : Z,
     setDefaultValue (set_MaxSize v config) =
     set_MaxSize (if v <? 0 then 100 else v) (setDefaultValue config)) /\
  (forall v : Z,
     setDefaultValue (set_MaxBackups v config) =
     set_MaxBackups (if v <? 0 then 10 else v) (setDefaultValue config)) /\
  (forall v : Z,
     setDefaultValue (set_MaxAge v config) =
     set_MaxAge (if v <? 0 then 30 else v) (setDefaultValue config)) /\
  (forall v : string,
     setDefaultValue (set_Encoder v config) =
     set_Encoder (if decide (v = "") then "json" else v) (setDefaultValue config)) /\
  (forall v : string,
     setDefaultValue (set_LogLevel v config) =
     set_LogLevel (if bool_decide (v = "") || negb (recognised v) then "info" else v)
       (setDefaultValue config)).
Proof.
  repeat match goal with |- _ /\ _ => split end; intros v;
    rewrite (setDefaultValue_eq config), setDefaultValue_eq; fields; reflexivity.
Qed.

(** ** Calling [GetLogger] again *)

Lemma setDefaultValue_twice `{GoRuntime} (config : PzlogConfig) :
  setDefaultValue (setDefaultValue config) = setDefaultValue config.
Proof. apply setDefaultValue_of_normal, setDefaultValue_gives_normal. Qed.

(** X11.  A second call of [GetLogger] on the same pointer finds the
    struct normalised: it returns the same logger and leaves the heap
    as the first call left it. *)
Theorem GetLogger_again `{GoRuntime} (h : gmap Ptr.loc PzlogConfig) (l : Ptr.loc)
    (config : PzlogConfig) :
  h !! l = Some config ->
  exists (lg : zap.Logger) (h' : gmap Ptr.loc PzlogConfig),
    GetLogger (Some l) h = Ptr.Returns lg h' /\
    GetLogger (Some l) h' = Ptr.Returns lg h'.
Proof.
  intros Hl. eexists _, _. split; [apply GetLogger_at, Hl|].
  rewrite (GetLogger_at _ l (setDefaultValue config)) by apply lookup_insert_eq.
  rewrite setDefaultValue_twice, insert_insert_eq. reflexivity.
Qed.

Lemma GetLogger_again_witness :
  exists (lg : zap.Logger) (h' : gmap Ptr.loc PzlogConfig),
    @GetLogger example_runtime (Some 1%positive) {[ 1%positive := config_compress ]} =
      Ptr.Returns lg h' /\
    @GetLogger example_runtime (Some 1%positive) h' = Ptr.Returns lg h'.
Proof.
  apply (@GetLogger_again example_runtime {[ 1%positive := config_compress ]} 1%positive
           config_compress).
  apply lookup_singleton_eq.
Defined.

(** X12.  On the nil pointer [GetLogger] writes to a struct of its own:
    the struct is at an address that the heap did not use, it holds the
    normalised defaults, and every struct that was in the heap is still
    there unchanged.  A second call on nil returns an equal logger. *)
Theorem GetLogger_nil_touches_nothing `{GoRuntime} (h : gmap Ptr.loc PzlogConfig) :
  exists (lg : zap.Logger) (h' : gmap Ptr.loc PzlogConfig) (l' : Ptr.loc),
    GetLogger None h = Ptr.Returns lg h' /\
    h !! l' = None /\
    h' !! l' = Some (setDefaultValue NewDefaultConfig) /\
    (forall l : Ptr.loc, l <> l' -> h' !! l = h !! l) /\
    (forall (l : Ptr.loc) (cfg : PzlogConfig), h !! l = Some cfg -> h' !! l = Some cfg) /\
    exists h'' : gmap Ptr.loc PzlogConfig, GetLogger None h' = Ptr.Returns lg h''.
Proof.
  assert (h !! fresh (dom h) = None) as Hfresh.
  { apply not_elem_of_dom. apply is_fresh. }
  eexists _, _, (fresh (dom h)). split; [apply GetLogger_nil|].
  split; [exact Hfresh|]. split; [apply lookup_insert_eq|]. split; [|split].
  - intros l Hne. apply lookup_insert_ne. congruence.
  - intros l cfg Hl. rewrite lookup_insert_ne; [exact Hl|]. intros <-. congruence.
  - eexists. apply GetLogger_nil.
Qed.

(** ** The second copy of the file *)

(** X13.  The two copies of the package agree on the fields they share:
    seen as a struct of the first copy, a struct of the second copy is
    normalised to the same values, gets the same level and the same
    rotating file. *)
Theorem Flat_agrees_with_nested `{GoRuntime} (config : Flat.PzlogConfig) (encoder : string) :
  setDefaultValue (nest config encoder) =
    nest (Flat.setDefaultValue config) (if decide (encoder = "") then "json" else encoder) /\
  Flat.getLevelEnabler config = getLevelEnabler (nest config encoder) /\
  Flat.GetWriteSyncer config = getWriteSyncer (nest config encoder).
Proof.
  split; [|split; reflexivity].
  rewrite setDefaultValue_eq, Flat_setDefaultValue_eq. reflexivity.
Qed.

(** X14.  In the second copy, with console printing, a record at or
    above the level is encoded twice and written twice: for the rotating
    file with the encoder of [getEncoder], for standard output with the
    encoder of [getConsoleEncoder].  Both are console encoders and they
    are different encoders; below the level nothing is encoded or
    written. *)
Theorem Flat_console_tee_two_encoders `{GoRuntime} (h : gmap Ptr.loc Flat.PzlogConfig)
    (l : Ptr.loc) (config : Flat.PzlogConfig) (now : Time) (caller : EntryCaller)
    (lvl : zapcore.Level) (msg : string) (fields : list zapcore.Field) :
  h !! l = Some config ->
  Flat.PrintConsole config = true ->
  let cfg := Flat.setDefaultValue config in
  let ent := entry_of now caller lvl msg in
  exists lg : zap.Logger,
    Flat.GetLogger (Some l) h = Ptr.Returns lg (<[l := cfg]> h) /\
    zap.Logger_Log lg now caller lvl msg fields =
      (if Flat.getLevelEnabler cfg <=? lvl then
         [ zapcore.EncodeEntry Flat.getEncoder ent fields;
           zapcore.Write_ (zapcore.WriteSyncer_writer (Flat.GetWriteSyncer cfg))
             Flat.getEncoder ent fields;
           zapcore.EncodeEntry Flat.getConsoleEncoder ent fields;
           zapcore.Write_ zapcore.os_Stdout Flat.getConsoleEncoder ent fields ]
       else []) /\
    variant_of Flat.getEncoder = HumanReadable /\
    variant_of Flat.getConsoleEncoder = HumanReadable /\
    Flat.getEncoder <> Flat.getConsoleEncoder.
Proof.
  intros Hl Hpc. cbv zeta.
  assert (Flat.PrintConsole (Flat.setDefaultValue config) = true) as Hpc'.
  { rewrite Flat_setDefaultValue_eq. exact Hpc. }
  eexists. split; [apply Flat_GetLogger_at, Hl|].
  cbv zeta. rewrite Hpc'. split; [|split; [reflexivity|split; [reflexivity|]]].
  - rewrite Logger_Log_tee. reflexivity.
  - intros Heq.
    apply (f_equal (fun e => zapcore.CallerKey (zapcore.Encoder_config e))) in Heq.
    discriminate Heq.
Qed.

Lemma Flat_console_tee_two_encoders_witness :
  exists lg : zap.Logger,
    @Flat.GetLogger example_runtime (Some 1%positive) {[ 1%positive := flat_config_console ]} =
      Ptr.Returns lg
        {[ 1%positive := @Flat.setDefaultValue example_runtime flat_config_console ]} /\
    encoders (zap.Logger_Log lg 0 caller_main zapcore.DebugLevel "hello" []) =
      [ @Flat.getEncoder example_runtime; @Flat.getConsoleEncoder example_runtime ].
Proof.
  destruct (@Flat_console_tee_two_encoders example_runtime
              {[ 1%positive := flat_config_console ]} 1%positive flat_config_console
              0 caller_main zapcore.DebugLevel "hello" [])
    as (lg & Hrun & Hlog & _); [apply lookup_singleton_eq|reflexivity|].
  exists lg. split.
  - etransitivity; [exact Hrun|]. reflexivity.
  - rewrite Hlog. reflexivity.
Defined.

(** X15.  [GetLogger] of the second copy returns a logger for nil and
    for every pointer to a configuration.  For nil the struct it builds
    differs from its normal form in the level name only, and the logger
    writes to the same rotating file as the logger that the first copy
    returns for nil. *)
Theorem Flat_GetLogger_never_fails `{GoRuntime} (h : gmap Ptr.loc Flat.PzlogConfig)
    (config : Ptr.pointer) :
  (forall l, config = Some l -> is_Some (h !! l)) ->
  (exists (lg : zap.Logger) (h' : gmap Ptr.loc Flat.PzlogConfig),
     Flat.GetLogger config h = Ptr.Returns lg h') /\
  Flat.setDefaultValue Flat.NewDefaultConfig = Flat.set_LogLevel "info" Flat.NewDefaultConfig /\
  Flat.GetLogger None h =
    Ptr.Returns
      {| zap.core := zapcore.ioCore zapcore.InfoLevel Flat.getEncoder
                       (getWriteSyncer (setDefaultValue NewDefaultConfig));
         zap.name := ""; zap.addCaller := true |}
      (<[fresh (dom h) := Flat.setDefaultValue Flat.NewDefaultConfig]> h).
Proof.
  intros Hvalid.
  assert (Flat.GetLogger None h =
    Ptr.Returns
      {| zap.core := zapcore.ioCore zapcore.InfoLevel Flat.getEncoder
                       (getWriteSyncer (setDefaultValue NewDefaultConfig));
         zap.name := ""; zap.addCaller := true |}
      (<[fresh (dom h) := Flat.setDefaultValue Flat.NewDefaultConfig]> h)) as Hnil.
  { unfold Flat.GetLogger, Ptr.call_on, Ptr.bind, Ptr.ret, Ptr.load, Ptr.store, Ptr.new.
    cbv beta iota zeta. rewrite lookup_insert_eq. cbv beta iota.
    rewrite lookup_insert_eq. cbv beta iota.
    rewrite lookup_insert_eq, insert_insert_eq. cbv beta iota.
    rewrite Flat_setDefaultValue_eq, setDefaultValue_eq. reflexivity. }
  split; [|split; [|exact Hnil]].
  - destruct config as [l|].
    + destruct (Hvalid l eq_refl) as [cfg Hl].
      eexists _, _. apply Flat_GetLogger_at, Hl.
    + eexists _, _. exact Hnil.
  - rewrite Flat_setDefaultValue_eq. reflexivity.
Qed.

Lemma Flat_GetLogger_never_fails_witness :
  exists (lg : zap.Logger) (h' : gmap Ptr.loc Flat.PzlogConfig),
    @Flat.GetLogger example_runtime (Some 1%positive) {[ 1%positive := flat_config_console ]} =
      Ptr.Returns lg h'.
Proof.
  apply (@Flat_GetLogger_never_fails example_runtime {[ 1%positive := flat_config_console ]}
           (Some 1%positive)).
  intros l Hl. injection Hl as <-. exists flat_config_console. apply lookup_singleton_eq.
Defined.

(** ** The errors that the middleware logs *)

Lemma IsType_private (msg : gin.Error) :
  gin.IsType msg gin.ErrorTypePrivate = Z.odd (gin.Type_ msg).
Proof.
  unfold gin.IsType, gin.ErrorTypePrivate.
  change (Z.shiftl 1 0) with (Z.ones 1). rewrite Z.land_ones by lia.
  change (2 ^ 1) with 2. rewrite Zmod_odd.
  destruct (Z.odd (gin.Type_ msg)); reflexivity.
Qed.

(** X16.  The errors field of the record is made from the errors whose
    type has the private bit (bit 0) and from no others, in the order in
    which the chain attached them: when the chain attaches no such
    error, the field is the text of the empty list, however many other
    errors there are. *)
Theorem GinLogger_logs_private_errors_only `{gin.GinRuntime} (Next : Handling -> Handling)
    (s : Handling) :
  let errors := gin.Errors (c (Next s)) in
  let private := List.filter (fun msg => Z.odd (gin.Type_ msg)) errors in
  exists call : zap.Call,
    last (logged (GinLogger Next s)) = Some call /\
    zap.Call_Fields call !! 6%nat = Some (zap.String "errors" (gin.errorMsgs_String private)) /\
    (forall msg : gin.Error, msg ∈ private <-> msg ∈ errors /\ Z.testbit (gin.Type_ msg) 0 = true) /\
    ((forall msg : gin.Error, msg ∈ errors -> Z.testbit (gin.Type_ msg) 0 = false) ->
     zap.Call_Fields call !! 6%nat = Some (zap.String "errors" (gin.errorMsgs_String []))).
Proof.
  cbv zeta.
  assert (gin.ByType (gin.Errors (c (Next s))) gin.ErrorTypePrivate =
          List.filter (fun msg => Z.odd (gin.Type_ msg)) (gin.Errors (c (Next s)))) as Hby.
  { unfold gin.ByType. rewrite decide_False by discriminate.
    apply filter_ext. intros msg. apply IsType_private. }
  eexists. split; [unfold GinLogger, L_Info; cbn [logged]; apply last_snoc|].
  cbn [zap.Call_Fields]. split; [|split].
  - rewrite Hby. reflexivity.
  - intros msg. rewrite Z.bit0_odd, !list_elem_of_In, filter_In. reflexivity.
  - intros Hnone. rewrite Hby.
    assert (List.filter (fun msg => Z.odd (gin.Type_ msg)) (gin.Errors (c (Next s))) = [])
      as ->; [|reflexivity].
    revert Hnone. generalize (gin.Errors (c (Next s))). intros errors.
    induction errors as [|msg errors IH]; intros Hnone; [reflexivity|].
    cbn [List.filter]. rewrite <- Z.bit0_odd, (Hnone msg) by (apply elem_of_cons; tauto).
    apply IH. intros msg' Hin. apply Hnone, elem_of_cons. tauto.
Qed.

Lemma GinLogger_logs_private_errors_only_witness :
  exists call : zap.Call,
    last (logged (@GinLogger example_gin_runtime
                    (fun s => {| c := {| gin.Request := gin.Request (c s);
                                         gin.Writer_Status := 500;
                                         gin.Errors := [ {| gin.Err := "for the client";
                                                            gin.Type_ := 2;
                                                            gin.Meta := None |} ] |};
                                 clock := clock s; logged := logged s |})
                    request_items)) = Some call /\
    zap.Call_Fields call !! 6%nat = Some (zap.String "errors" "").
Proof.
  destruct (@GinLogger_logs_private_errors_only example_gin_runtime
              (fun s => {| c := {| gin.Request := gin.Request (c s);
                                   gin.Writer_Status := 500;
                                   gin.Errors := [ {| gin.Err := "for the client";
                                                      gin.Type_ := 2;
                                                      gin.Meta := None |} ] |};
                           clock := clock s; logged := logged s |})
              request_items) as (call & Hlast & _ & _ & Hnone).
  exists call. split; [exact Hlast|].
  etransitivity; [apply Hnone|reflexivity].
  intros msg Hin. cbn in Hin. apply list_elem_of_singleton in Hin. subst msg. reflexivity.
Defined.
